(** * The [accelerate launch] command (src/accelerate/commands/launch.py)

    A shallow embedding of the launcher: the three strategies
    [simple_launcher], [multi_gpu_launcher] and [tpu_launcher], and the
    dispatcher [launch_command].  Python's effects are made explicit: the
    functions run in a state-and-exception monad over the interpreter
    state they touch (the [args] object, [os.environ], [sys.path],
    [sys.argv]), and every call that leaves the module is recorded in a
    trace. *)

From Stdlib Require Import Ascii String.
From stdpp Require Import base strings gmap list pretty.

Local Open Scope string_scope.
Local Open Scope Z_scope.
Local Open Scope list_scope.

(** ** Values *)

(** Modelled from the spec: the distributed-mode discriminant of a saved
    configuration (single-process, multi-accelerator, tpu).  The enum is
    declared in accelerate/config.py, which is not among the sources; the
    launcher only compares against [MULTI_GPU] and [TPU]. *)
Inductive DistributedType := NO | MULTI_GPU | TPU.

Global Instance DistributedType_eq_dec : EqDecision DistributedType.
Proof. solve_decision. Defined.

(** Modelled from the spec: the record read from a configuration file
    (a distributed-mode discriminant, a process count and a
    mixed-precision flag); the class lives in commands/config.py, which
    is not among the sources. *)
Record LaunchConfig := {
  distributed_type : DistributedType;
  cfg_num_processes : Z;
  cfg_fp16 : bool
}.

(** The [argparse.Namespace] the launcher works on.  The first seven
    attributes are the ones [launch_command_parser] declares, with the
    parser's types ([None] is the default of [--config_file] and
    [--num_processes]).  The last four are read by [multi_gpu_launcher];
    only [main_process_ip] is ever compared with [None].  The parser
    declares none of these four: the record stands for an [args] object
    on which they have been set, and a statement that reads one of them
    speaks of such objects only. *)
Record Namespace := {
  config_file : option string;
  multi_gpu : bool;
  tpu : bool;
  fp16 : bool;
  num_processes : option Z;
  training_script : string;
  training_script_args : list string;
  main_process_ip : option string;
  main_process_port : Z;
  num_machines : Z;
  machine_rank : Z
}.

Definition set_multi_gpu (b : bool) (a : Namespace) : Namespace :=
  {| config_file := config_file a; multi_gpu := b; tpu := tpu a;
     fp16 := fp16 a; num_processes := num_processes a;
     training_script := training_script a;
     training_script_args := training_script_args a;
     main_process_ip := main_process_ip a;
     main_process_port := main_process_port a;
     num_machines := num_machines a; machine_rank := machine_rank a |}.

Definition set_tpu (b : bool) (a : Namespace) : Namespace :=
  {| config_file := config_file a; multi_gpu := multi_gpu a; tpu := b;
     fp16 := fp16 a; num_processes := num_processes a;
     training_script := training_script a;
     training_script_args := training_script_args a;
     main_process_ip := main_process_ip a;
     main_process_port := main_process_port a;
     num_machines := num_machines a; machine_rank := machine_rank a |}.

Definition set_fp16 (b : bool) (a : Namespace) : Namespace :=
  {| config_file := config_file a; multi_gpu := multi_gpu a; tpu := tpu a;
     fp16 := b; num_processes := num_processes a;
     training_script := training_script a;
     training_script_args := training_script_args a;
     main_process_ip := main_process_ip a;
     main_process_port := main_process_port a;
     num_machines := num_machines a; machine_rank := machine_rank a |}.

Definition set_num_processes (n : option Z) (a : Namespace) : Namespace :=
  {| config_file := config_file a; multi_gpu := multi_gpu a; tpu := tpu a;
     fp16 := fp16 a; num_processes := n;
     training_script := training_script a;
     training_script_args := training_script_args a;
     main_process_ip := main_process_ip a;
     main_process_port := main_process_port a;
     num_machines := num_machines a; machine_rank := machine_rank a |}.

(** ** Exceptions and outcomes *)

Inductive Exn :=
  | ValueError (msg : string)
  | CalledProcessError (returncode : Z) (cmd : list string)
  | ZeroDivisionError
  | TypeError
  | ImportError (name : string)
  | AttributeError (attr : string)
  | ExternalError (msg : string).

Inductive Res (A : Type) :=
  | Ok (a : A)
  | Raise (e : Exn).
Arguments Ok {A} a.
Arguments Raise {A} e.

Definition raised {A} (r : Res A) : bool :=
  match r with Ok _ => false | Raise _ => true end.

(** ** Python primitives *)

(** [str(b)] for a bool. *)
Definition str_bool (b : bool) : string := if b then "True" else "False".

(** [str(n)] for an int. *)
Definition str_int (n : Z) : string := pretty n.

(** [str(v)] for a value that is an int or [None]. *)
Definition str_opt_int (v : option Z) : string :=
  match v with Some n => str_int n | None => "None" end.

(** [a // b] where [a] is an int or [None] and [b] an int: floor division,
    [ZeroDivisionError] on a zero divisor, [TypeError] on [None]. *)
Definition floordiv (a : option Z) (b : Z) : Res Z :=
  match a with
  | None => Raise TypeError
  | Some n => if decide (b = 0) then Raise ZeroDivisionError else Ok (n `div` b)
  end.

(** ** [pathlib] on POSIX paths

    [tpu_launcher] uses [Path(...).parent], [.stem] and [str]; these are
    the pure parts of [pathlib.PurePosixPath].  A parsed path is its root
    (empty, one slash, or two slashes when the text starts with exactly
    two) and its components, where empty components and single dots are
    dropped. *)

Record PurePath := { root : string; parts : list string }.

(** [s.split(c)]. *)
Fixpoint split_on (c : ascii) (s : string) : list string :=
  match s with
  | EmptyString => [""]
  | String a s' =>
      if decide (a = c) then "" :: split_on c s'
      else match split_on c s' with
           | x :: xs => String a x :: xs
           | [] => [String a ""]
           end
  end.

(** Number of leading occurrences of [c]. *)
Fixpoint leading (c : ascii) (s : string) : nat :=
  match s with
  | String a s' => if decide (a = c) then S (leading c s') else 0%nat
  | EmptyString => 0%nat
  end.

Definition Path (s : string) : PurePath :=
  {| root := match leading "/"%char s with
             | 0%nat => ""
             | 2%nat => "//"
             | _ => "/"
             end;
     parts := filter (fun x => x <> "" /\ x <> ".") (split_on "/"%char s) |}.

Definition path_str (p : PurePath) : string :=
  match root p, parts p with
  | "", [] => "."
  | r, ps => r +:+ String.concat "/" ps
  end.

Definition path_parent (p : PurePath) : PurePath :=
  {| root := root p; parts := removelast (parts p) |}.

Definition path_name (p : PurePath) : string := List.last (parts p) "".

(** [s.rfind(c)], with [None] for -1. *)
Fixpoint rfind (c : ascii) (s : string) : option nat :=
  match s with
  | EmptyString => None
  | String a s' =>
      match rfind c s' with
      | Some i => Some (S i)
      | None => if decide (a = c) then Some 0%nat else None
      end
  end.

Definition path_stem (p : PurePath) : string :=
  let name := path_name p in
  match rfind "."%char name with
  | Some i =>
      if decide (0 < i /\ i < String.length name - 1)%nat
      then String.substring 0 i name else name
  | None => name
  end.

(** ** Interpreter state, the outside world, and the monad *)

Inductive Launcher := SIMPLE | MULTI | XLA.

Global Instance Launcher_eq_dec : EqDecision Launcher.
Proof. solve_decision. Defined.

(** What a run does that is visible outside the module, oldest first.
    [Enter] marks the call of one of the three launchers. *)
Inductive Event :=
  | IsFile (path : string)
  | LoadConfig (json_file : option string)
  | Enter (l : Launcher)
  | Popen (cmd : list string) (env : gmap string string)
  | ImportXmp
  | ImportModule (name : string)
  | Spawn (nprocs : option Z).

(** [namespace] is the one [args] object that [main] obtains from the
    parser and hands to [launch_command], which assigns to its
    attributes. *)
Record State := {
  namespace : Namespace;
  os_environ : gmap string string;
  sys_path : list string;
  sys_argv : list string;
  trace : list Event
}.

Definition M (A : Type) : Type := State -> Res A * State.

Global Instance M_ret : MRet M := fun A a s => (Ok a, s).
Global Instance M_bind : MBind M := fun A B f m s =>
  match m s with
  | (Ok a, s') => f a s'
  | (Raise e, s') => (Raise e, s')
  end.

Definition raise {A} (e : Exn) : M A := fun s => (Raise e, s).
Definition lift {A} (r : Res A) : M A := fun s => (r, s).
Definition get : M State := fun s => (Ok s, s).
(** The state after the events [evs] have happened. *)
Definition log (evs : list Event) (s : State) : State :=
  {| namespace := namespace s; os_environ := os_environ s;
     sys_path := sys_path s; sys_argv := sys_argv s;
     trace := trace s ++ evs |}.
Definition emit (e : Event) : M unit := fun s => (Ok tt, log [e] s).
Definition update_args (f : Namespace -> Namespace) : M unit := fun s =>
  (Ok tt, {| namespace := f (namespace s); os_environ := os_environ s;
             sys_path := sys_path s; sys_argv := sys_argv s;
             trace := trace s |}).
Definition sys_path_append (d : string) : M unit := fun s =>
  (Ok tt, {| namespace := namespace s; os_environ := os_environ s;
             sys_path := sys_path s ++ [d]; sys_argv := sys_argv s;
             trace := trace s |}).
Definition set_sys_argv (v : list string) : M unit := fun s =>
  (Ok tt, {| namespace := namespace s; os_environ := os_environ s;
             sys_path := sys_path s; sys_argv := v;
             trace := trace s |}).

(** A module found by [importlib.import_module]: all the launcher asks
    of it is the attribute [_mp_fn]. *)
Record PyModule := { has_mp_fn : bool }.

(** Everything the launcher calls but does not define. *)
Class Host := {
  (** [sys.executable] *)
  sys_executable : string;
  (** [default_config_file], from commands/config.py *)
  default_config_file : string;
  (** [os.path.isfile] *)
  isfile : string -> bool;
  (** [LaunchConfig.from_json_file(json_file=...)] *)
  from_json_file : option string -> Res LaunchConfig;
  (** the [returncode] after [subprocess.Popen(cmd, env=env)] and [wait()] *)
  returncode : list string -> gmap string string -> Z;
  (** [str(Path(d).resolve())] *)
  resolve : string -> string;
  (** whether [torch_xla.distributed.xla_multiprocessing] can be imported *)
  xmp_importable : bool;
  (** [importlib.import_module(name)] under a given [sys.path]: the
      module, or [None] when the call raises *)
  import_module : list string -> string -> option PyModule;
  (** the exception a failing [importlib.import_module(name)] raises:
      [ModuleNotFoundError] for this or another module, [TypeError] for a
      name that starts with a dot, or what the script raises when run *)
  import_failure : list string -> string -> Exn;
  (** the exception [xmp.spawn] ends with, if any *)
  spawn_failure : list string -> option Z -> option Exn
}.

(** ** The launcher *)

Section Launch.
Context `{Host}.

(** [subprocess.Popen(cmd, env=env)], [process.wait()], and the check of
    [process.returncode] that ends both subprocess launchers. *)
Definition popen_wait_check (cmd : list string) (env : gmap string string) : M unit :=
  emit (Popen cmd env);;
  let rc := returncode cmd env in
  if decide (rc <> 0) then raise (CalledProcessError rc cmd) else mret tt.

Definition simple_launcher (args : Namespace) : M unit :=
  emit (Enter SIMPLE);;
  let cmd := [sys_executable; training_script args] in
  let cmd := cmd ++ training_script_args args in
  s ← get;
  let current_env := os_environ s in
  let current_env := <["USE_FP16" := str_bool (fp16 args)]> current_env in
  popen_wait_check cmd current_env.

Definition multi_gpu_launcher (args : Namespace) : M unit :=
  emit (Enter MULTI);;
  let cmd := [sys_executable; "-m"; "torch.distributed.launch"] in
  let cmd := cmd ++ ["--nproc_per_node"; str_opt_int (num_processes args)] in
  cmd ← match main_process_ip args with
        | Some ip =>
            per_node ← lift (floordiv (num_processes args) (num_machines args));
            mret (cmd ++ [
              "--nproc_per_node";
              str_int per_node;
              "--nnodes";
              str_int (num_machines args);
              "--node_rank";
              str_int (machine_rank args);
              "--master_addr";
              ip;
              "--node_rank";
              str_int (main_process_port args)
            ])
        | None =>
            mret (cmd ++ ["--nproc_per_node"; str_opt_int (num_processes args)])
        end;
  let cmd := cmd ++ [training_script args] in
  let cmd := cmd ++ training_script_args args in
  s ← get;
  let current_env := os_environ s in
  let current_env := <["USE_FP16" := str_bool (fp16 args)]> current_env in
  popen_wait_check cmd current_env.

Definition tpu_launcher (args : Namespace) : M unit :=
  emit (Enter XLA);;
  emit ImportXmp;;
  (if xmp_importable then mret tt
   else raise (ImportError "torch_xla.distributed.xla_multiprocessing"));;
  let script_path := Path (training_script args) in
  sys_path_append (resolve (path_str (path_parent script_path)));;
  let mod_name := path_stem script_path in
  emit (ImportModule mod_name);;
  s ← get;
  mdl ← match import_module (sys_path s) mod_name with
        | Some m => mret m
        | None => raise (import_failure (sys_path s) mod_name)
        end;
  set_sys_argv ([training_script args] ++ training_script_args args
                ++ ["--tpu_num_cores"; str_opt_int (num_processes args)]);;
  (if has_mp_fn mdl then mret tt else raise (AttributeError "_mp_fn"));;
  emit (Spawn (num_processes args));;
  s ← get;
  match spawn_failure (sys_argv s) (num_processes args) with
  | Some e => raise e
  | None => mret tt
  end.

Definition get_args : M Namespace := fun s => (Ok (namespace s), s).

Definition launch_command : M unit :=
  args ← get_args;
  (if multi_gpu args && tpu args
   then raise (ValueError "You can only pick one between `--multi_gpu` and `--tpu`.")
   else mret tt);;
  args ← get_args;
  use_config ← (if decide (config_file args <> None) then mret true
                else emit (IsFile default_config_file);;
                     mret (isfile default_config_file));
  (if use_config : bool then
     args ← get_args;
     emit (LoadConfig (config_file args));;
     defaults ← lift (from_json_file (config_file args));
     args ← get_args;
     (if negb (multi_gpu args) && negb (tpu args) then
        update_args (set_multi_gpu (bool_decide (distributed_type defaults = MULTI_GPU)));;
        update_args (set_tpu (bool_decide (distributed_type defaults = TPU)))
      else mret tt);;
     args ← get_args;
     (if decide (num_processes args = None)
      then update_args (set_num_processes (Some (cfg_num_processes defaults)))
      else mret tt);;
     args ← get_args;
     (if negb (fp16 args)
      then update_args (set_fp16 (cfg_fp16 defaults))
      else mret tt)
   else
     args ← get_args;
     (if decide (num_processes args = None)
      then update_args (set_num_processes (Some 1))
      else mret tt));;
  args ← get_args;
  if multi_gpu args then multi_gpu_launcher args
  else if tpu args then tpu_launcher args
  else simple_launcher args.

(** ** Reading a run

    The definitions below are not part of the launcher: they name what
    the statements about it speak of. *)

(** The launchers that were called, in order. *)
Fixpoint entered (t : list Event) : list Launcher :=
  match t with
  | [] => []
  | Enter l :: t' => l :: entered t'
  | _ :: t' => entered t'
  end.

(** The child processes that were started, in order, each with its
    command and environment. *)
Fixpoint children (t : list Event) : list (list string * gmap string string) :=
  match t with
  | [] => []
  | Popen cmd env :: t' => (cmd, env) :: children t'
  | _ :: t' => children t'
  end.

(** The configuration loads that were made, in order. *)
Fixpoint loads (t : list Event) : list (option string) :=
  match t with
  | [] => []
  | LoadConfig f :: t' => f :: loads t'
  | _ :: t' => loads t'
  end.

(** The outcome of the check of [process.returncode]. *)
Definition exit_check (cmd : list string) (env : gmap string string) : Res unit :=
  if decide (returncode cmd env <> 0)
  then Raise (CalledProcessError (returncode cmd env) cmd)
  else Ok tt.

(** The environment both subprocess launchers hand to the child. *)
Definition child_env (args : Namespace) (s : State) : gmap string string :=
  <["USE_FP16" := str_bool (fp16 args)]> (os_environ s).

(** The flags [multi_gpu_launcher] puts between the module name and the
    training script, by topology. *)
Definition single_node_flags (n : option Z) : list string :=
  ["--nproc_per_node"; str_opt_int n; "--nproc_per_node"; str_opt_int n].

Definition multi_node_flags (n : Z) (args : Namespace) (ip : string) : list string :=
  ["--nproc_per_node"; str_int n;
   "--nproc_per_node"; str_int (n `div` num_machines args);
   "--nnodes"; str_int (num_machines args);
   "--node_rank"; str_int (machine_rank args);
   "--master_addr"; ip;
   "--node_rank"; str_int (main_process_port args)].

Definition multi_gpu_cmd (flags : list string) (args : Namespace) : list string :=
  [sys_executable; "-m"; "torch.distributed.launch"] ++ flags
  ++ [training_script args] ++ training_script_args args.

(** The launcher the last statement of [launch_command] calls. *)
Definition selected (args : Namespace) : Launcher :=
  if multi_gpu args then MULTI else if tpu args then XLA else SIMPLE.

Definition run_launcher (l : Launcher) (args : Namespace) : M unit :=
  match l with
  | SIMPLE => simple_launcher args
  | MULTI => multi_gpu_launcher args
  | XLA => tpu_launcher args
  end.

(** Whether [launch_command] reads a configuration, and what it asks the
    file system on the way. *)
Definition uses_config (args : Namespace) : bool :=
  match config_file args with
  | Some _ => true
  | None => isfile default_config_file
  end.

Definition probe (args : Namespace) : list Event :=
  match config_file args with
  | Some _ => []
  | None => [IsFile default_config_file]
  end.

(** [args] after the three fallbacks on a loaded configuration. *)
Definition merge_defaults (d : LaunchConfig) (args : Namespace) : Namespace :=
  let a1 := if negb (multi_gpu args) && negb (tpu args)
            then set_tpu (bool_decide (distributed_type d = TPU))
                   (set_multi_gpu (bool_decide (distributed_type d = MULTI_GPU)) args)
            else args in
  let a2 := match num_processes a1 with
            | None => set_num_processes (Some (cfg_num_processes d)) a1
            | Some _ => a1
            end in
  if fp16 a2 then a2 else set_fp16 (cfg_fp16 d) a2.

(** [args] after the fallback without a configuration. *)
Definition default_processes (args : Namespace) : Namespace :=
  match num_processes args with
  | None => set_num_processes (Some 1) args
  | Some _ => args
  end.

Definition with_args (a : Namespace) (s : State) : State :=
  {| namespace := a; os_environ := os_environ s; sys_path := sys_path s;
     sys_argv := sys_argv s; trace := trace s |}.

End Launch.

(** ** Concrete runs

    A host and a few [args] objects on which the statements below are
    exercised.  The host's child processes all exit with [rc]; loading a
    configuration gives [config]; [default_present] says whether the
    default configuration file exists; the working directory is [/work];
    the only importable training module is [bar], found once [/work/foo]
    is on the search path, and any other import ends in [ImportError]
    for the name asked. *)

Definition example_host (rc : Z) (config : Res LaunchConfig)
    (default_present : bool) : Host :=
  {| sys_executable := "/usr/bin/python3";
     default_config_file := "/home/user/.cache/accelerate/default_config.json";
     isfile := fun _ => default_present;
     from_json_file := fun _ => config;
     returncode := fun _ _ => rc;
     resolve := fun d => if decide (d = ".") then "/work" else "/work/" +:+ d;
     xmp_importable := true;
     import_module := fun path name =>
       if bool_decide ("/work/foo" ∈ path) && bool_decide (name = "bar")
       then Some {| has_mp_fn := true |} else None;
     import_failure := fun _ name => ImportError name;
     spawn_failure := fun _ _ => None |}.

Definition saved_multi_gpu : LaunchConfig :=
  {| distributed_type := MULTI_GPU; cfg_num_processes := 4; cfg_fp16 := true |}.

(** The [args] of [accelerate launch train.py --epochs 3], with the
    topology attributes of a single machine set on it. *)
Definition train_args : Namespace :=
  {| config_file := None; multi_gpu := false; tpu := false; fp16 := false;
     num_processes := None; training_script := "train.py";
     training_script_args := ["--epochs"; "3"];
     main_process_ip := None; main_process_port := 0;
     num_machines := 1; machine_rank := 0 |}.

(** The same with [--multi_gpu --tpu]. *)
Definition both_flags_args : Namespace := set_tpu true (set_multi_gpu true train_args).

(** The same with [--multi_gpu]. *)
Definition multi_gpu_flag_args : Namespace := set_multi_gpu true train_args.

(** Eight processes over two machines, this one of rank 0, coordinator
    at 10.0.0.1:29500. *)
Definition two_machines_args : Namespace :=
  {| config_file := None; multi_gpu := true; tpu := false; fp16 := false;
     num_processes := Some 8; training_script := "train.py";
     training_script_args := ["--epochs"; "3"];
     main_process_ip := Some "10.0.0.1"; main_process_port := 29500;
     num_machines := 2; machine_rank := 0 |}.

(** The [args] of [accelerate launch --tpu --num_processes 8 foo/bar.py
    --lr 0.1], with the topology attributes of a single machine. *)
Definition tpu_args : Namespace :=
  {| config_file := None; multi_gpu := false; tpu := true; fp16 := false;
     num_processes := Some 8; training_script := "foo/bar.py";
     training_script_args := ["--lr"; "0.1"];
     main_process_ip := None; main_process_port := 0;
     num_machines := 1; machine_rank := 0 |}.

(** A fresh interpreter holding [a]. *)
Definition start (a : Namespace) : State :=
  {| namespace := a; os_environ := {["HOME" := "/home/user"]};
     sys_path := ["/usr/lib/python3"]; sys_argv := ["accelerate"; "launch"];
     trace := [] |}.

(** ** Further observations *)

(** The paths [os.path.isfile] was asked about, in order. *)
Fixpoint probes (t : list Event) : list string :=
  match t with
  | [] => []
  | IsFile f :: t' => f :: probes t'
  | _ :: t' => probes t'
  end.

(** The calls of [xmp.spawn], in order, each with its [nprocs]. *)
Fixpoint spawns (t : list Event) : list (option Z) :=
  match t with
  | [] => []
  | Spawn n :: t' => n :: spawns t'
  | _ :: t' => spawns t'
  end.

(** The modules asked of [importlib.import_module], in order. *)
Fixpoint imports (t : list Event) : list string :=
  match t with
  | [] => []
  | ImportModule m :: t' => m :: imports t'
  | _ :: t' => imports t'
  end.

(** Whether the character [c] occurs in [s]. *)
Fixpoint has_char (c : ascii) (s : string) : bool :=
  match s with
  | EmptyString => false
  | String a s' => if decide (a = c) then true else has_char c s'
  end.

(** A file or directory name without separators and dots. *)
Definition plain (s : string) : Prop :=
  s <> "" /\ has_char "/"%char s = false /\ has_char "."%char s = false.

(** The state in which [launch_command] calls the selected launcher,
    if it gets that far. *)
Definition before_launcher `{Host} (s : State) : option State :=
  let a := namespace s in
  if multi_gpu a && tpu a then None
  else if uses_config a then
    match from_json_file (config_file a) with
    | Ok d => Some (with_args (merge_defaults d a)
                      (log (probe a ++ [LoadConfig (config_file a)]) s))
    | Raise _ => None
    end
  else Some (with_args (default_processes a) (log (probe a) s)).

(** A configuration that asks for TPU training on eight cores. *)
Definition saved_tpu : LaunchConfig :=
  {| distributed_type := TPU; cfg_num_processes := 8; cfg_fp16 := false |}.

(** The [args] of [accelerate launch --config_file my.json train.py
    --epochs 3], with the topology attributes of a single machine. *)
Definition config_file_args : Namespace :=
  {| config_file := Some "my.json"; multi_gpu := false; tpu := false;
     fp16 := false; num_processes := None; training_script := "train.py";
     training_script_args := ["--epochs"; "3"];
     main_process_ip := None; main_process_port := 0;
     num_machines := 1; machine_rank := 0 |}.

(** Eight processes, a coordinator address, and a machine count of 0. *)
Definition zero_machines_args : Namespace :=
  {| config_file := None; multi_gpu := true; tpu := false; fp16 := false;
     num_processes := Some 8; training_script := "train.py";
     training_script_args := ["--epochs"; "3"];
     main_process_ip := Some "10.0.0.1"; main_process_port := 29500;
     num_machines := 0; machine_rank := 0 |}.

(** As [multi_gpu_flag_args], with left-over topology values and no
    coordinator address. *)
Definition stale_topology_args : Namespace :=
  {| config_file := None; multi_gpu := true; tpu := false; fp16 := false;
     num_processes := None; training_script := "train.py";
     training_script_args := ["--epochs"; "3"];
     main_process_ip := None; main_process_port := 29500;
     num_machines := 0; machine_rank := 7 |}.

(** The [args] of [accelerate launch --tpu --num_processes 8
    missing/absent.py], with the topology attributes of a single
    machine. *)
Definition tpu_missing_args : Namespace :=
  {| config_file := None; multi_gpu := false; tpu := true; fp16 := false;
     num_processes := Some 8; training_script := "missing/absent.py";
     training_script_args := [];
     main_process_ip := None; main_process_port := 0;
     num_machines := 1; machine_rank := 0 |}.

(** A host without the XLA package, and one whose module [bar] has no
    [_mp_fn]. *)
Definition host_without_xla : Host :=
  {| sys_executable := "/usr/bin/python3";
     default_config_file := "/home/user/.cache/accelerate/default_config.json";
     isfile := fun _ => false;
     from_json_file := fun _ => Raise (ExternalError "no configuration");
     returncode := fun _ _ => 0;
     resolve := fun d => if decide (d = ".") then "/work" else "/work/" +:+ d;
     xmp_importable := false;
     import_module := fun _ _ => None;
     import_failure := fun _ name => ImportError name;
     spawn_failure := fun _ _ => None |}.

Definition host_without_mp_fn : Host :=
  {| sys_executable := "/usr/bin/python3";
     default_config_file := "/home/user/.cache/accelerate/default_config.json";
     isfile := fun _ => false;
     from_json_file := fun _ => Raise (ExternalError "no configuration");
     returncode := fun _ _ => 0;
     resolve := fun d => if decide (d = ".") then "/work" else "/work/" +:+ d;
     xmp_importable := true;
     import_module := fun _ _ => Some {| has_mp_fn := false |};
     import_failure := fun _ name => ImportError name;
     spawn_failure := fun _ _ => None |}.

Ltac run :=
  unfold mbind, M_bind, mret, M_ret, raise, lift, get, get_args, emit,
    update_args, sys_path_append, set_sys_argv; simpl.

(** ** What each launcher does *)

Section Launchers.
Context `{Host}.

Implicit Types (args : Namespace) (s : State) (cmd : list string)
  (env : gmap string string) (t : list Event).

Lemma log_log evs1 evs2 s : log evs2 (log evs1 s) = log (evs1 ++ evs2) s.
Proof. unfold log; simpl. by rewrite <- app_assoc. Qed.

Lemma log_nil s : log [] s = s.
Proof. destruct s; unfold log; simpl. by rewrite app_nil_r. Qed.

Lemma entered_app t1 t2 : entered (t1 ++ t2) = entered t1 ++ entered t2.
Proof.
  induction t1 as [|e t1 IH]; [done|].
  destruct e; simpl; by rewrite ?IH.
Qed.

Lemma children_app t1 t2 : children (t1 ++ t2) = children t1 ++ children t2.
Proof.
  induction t1 as [|e t1 IH]; [done|].
  destruct e; simpl; by rewrite ?IH.
Qed.

Lemma loads_app t1 t2 : loads (t1 ++ t2) = loads t1 ++ loads t2.
Proof.
  induction t1 as [|e t1 IH]; [done|].
  destruct e; simpl; by rewrite ?IH.
Qed.

Lemma popen_wait_check_run cmd env s :
  popen_wait_check cmd env s = (exit_check cmd env, log [Popen cmd env] s).
Proof.
  unfold popen_wait_check, exit_check. run.
  by destruct (decide (returncode cmd env <> 0)).
Qed.

Lemma simple_launcher_run args s :
  let cmd := [sys_executable; training_script args] ++ training_script_args args in
  simple_launcher args s =
    (exit_check cmd (child_env args s),
     log [Enter SIMPLE; Popen cmd (child_env args s)] s).
Proof.
  intros cmd. unfold simple_launcher. run.
  rewrite popen_wait_check_run. by rewrite log_log.
Qed.

Lemma multi_gpu_launcher_single_node args s :
  main_process_ip args = None ->
  let cmd := multi_gpu_cmd (single_node_flags (num_processes args)) args in
  multi_gpu_launcher args s =
    (exit_check cmd (child_env args s),
     log [Enter MULTI; Popen cmd (child_env args s)] s).
Proof.
  intros Hip cmd. unfold multi_gpu_launcher. rewrite Hip. run.
  rewrite popen_wait_check_run. by rewrite log_log.
Qed.

Lemma multi_gpu_launcher_multi_node args s ip n :
  main_process_ip args = Some ip ->
  num_processes args = Some n ->
  num_machines args <> 0 ->
  let cmd := multi_gpu_cmd (multi_node_flags n args ip) args in
  multi_gpu_launcher args s =
    (exit_check cmd (child_env args s),
     log [Enter MULTI; Popen cmd (child_env args s)] s).
Proof.
  intros Hip Hn Hm cmd. unfold multi_gpu_launcher, floordiv.
  rewrite Hip, Hn. run. destruct (decide (num_machines args = 0)); [done|].
  simpl. rewrite popen_wait_check_run. by rewrite log_log.
Qed.

(** Where the per-node count cannot be computed no child is started. *)
Lemma multi_gpu_launcher_no_count args s ip :
  main_process_ip args = Some ip ->
  num_processes args = None \/ num_machines args = 0 ->
  exists e, multi_gpu_launcher args s = (Raise e, log [Enter MULTI] s).
Proof.
  intros Hip Hbad. unfold multi_gpu_launcher, floordiv. rewrite Hip. run.
  destruct (num_processes args) as [n|]; [|by eexists].
  destruct Hbad as [|Hm]; [done|]. rewrite Hm. simpl. by eexists.
Qed.

(** The TPU launcher when both imports succeed and [_mp_fn] exists. *)
Lemma tpu_launcher_run args s mdl :
  let script_path := Path (training_script args) in
  let dir := resolve (path_str (path_parent script_path)) in
  let argv := [training_script args] ++ training_script_args args
              ++ ["--tpu_num_cores"; str_opt_int (num_processes args)] in
  xmp_importable = true ->
  import_module (sys_path s ++ [dir]) (path_stem script_path) = Some mdl ->
  has_mp_fn mdl = true ->
  tpu_launcher args s =
    (match spawn_failure argv (num_processes args) with
     | Some e => Raise e
     | None => Ok tt
     end,
     {| namespace := namespace s; os_environ := os_environ s;
        sys_path := sys_path s ++ [dir]; sys_argv := argv;
        trace := trace s ++ [Enter XLA; ImportXmp;
                             ImportModule (path_stem script_path);
                             Spawn (num_processes args)] |}).
Proof.
  intros script_path dir argv Hx Hi Hf. unfold tpu_launcher. run.
  rewrite Hx. simpl. fold script_path dir. rewrite Hi. simpl. rewrite Hf. simpl.
  subst argv. simpl.
  destruct (spawn_failure _ _); unfold log; simpl; by rewrite <- !app_assoc.
Qed.

(** What every call of a launcher leaves behind, whatever its outcome:
    the [args] object and [os.environ] are not written, no configuration
    is loaded, and the call is the only launcher call. *)
Lemma run_launcher_frame l args s :
  let s' := snd (run_launcher l args s) in
  namespace s' = namespace s /\ os_environ s' = os_environ s /\
  entered (trace s') = entered (trace s) ++ [l] /\
  loads (trace s') = loads (trace s).
Proof.
  destruct l; simpl.
  - rewrite simple_launcher_run. simpl.
    by rewrite entered_app, loads_app, app_nil_r.
  - destruct (main_process_ip args) as [ip|] eqn:Hip.
    + destruct (num_processes args) as [n|] eqn:Hn.
      * destruct (decide (num_machines args = 0)) as [Hm|Hm].
        -- destruct (multi_gpu_launcher_no_count args s ip Hip) as [e ->];
             [by right|]. simpl.
           by rewrite entered_app, loads_app, app_nil_r.
        -- rewrite (multi_gpu_launcher_multi_node args s ip n) by done. simpl.
           by rewrite entered_app, loads_app, app_nil_r.
      * destruct (multi_gpu_launcher_no_count args s ip Hip) as [e ->];
          [by left|]. simpl.
        by rewrite entered_app, loads_app, app_nil_r.
    + rewrite multi_gpu_launcher_single_node by done. simpl.
      by rewrite entered_app, loads_app, app_nil_r.
  - unfold tpu_launcher. run.
    destruct xmp_importable; simpl;
      [|by rewrite <- !app_assoc, entered_app, loads_app, app_nil_r].
    destruct (import_module _ _) as [mdl|]; simpl;
      [|by rewrite <- !app_assoc, entered_app, loads_app, app_nil_r].
    destruct (has_mp_fn mdl); simpl;
      [|by rewrite <- !app_assoc, entered_app, loads_app, app_nil_r].
    destruct (spawn_failure _ _); simpl;
      by rewrite <- !app_assoc, entered_app, loads_app, app_nil_r.
Qed.

(** A launcher call starts at most one child; when it starts one, its
    outcome is the check of that child's exit status, and when it
    starts none it does not fail with [CalledProcessError] unless the
    spawn facility of the TPU strategy does. *)
Lemma subprocess_launcher_child l args s :
  l <> XLA ->
  let r := run_launcher l args s in
  (exists cmd env,
     children (trace (snd r)) = children (trace s) ++ [(cmd, env)] /\
     fst r = exit_check cmd env) \/
  (children (trace (snd r)) = children (trace s) /\
   exists e, fst r = Raise e /\ forall rc cmd, e <> CalledProcessError rc cmd).
Proof.
  intros Hl. destruct l; [| |done]; simpl.
  - left. rewrite simple_launcher_run. simpl. eexists _, _.
    by rewrite children_app.
  - destruct (main_process_ip args) as [ip|] eqn:Hip.
    + destruct (num_processes args) as [n|] eqn:Hn.
      * destruct (decide (num_machines args = 0)) as [Hm|Hm].
        -- right. unfold multi_gpu_launcher, floordiv. rewrite Hip, Hn, Hm. run.
           rewrite children_app, app_nil_r. split; [done|]. by eexists.
        -- left. rewrite (multi_gpu_launcher_multi_node args s ip n) by done.
           simpl. eexists _, _. by rewrite children_app.
      * right. unfold multi_gpu_launcher, floordiv. rewrite Hip, Hn. run.
        rewrite children_app, app_nil_r. split; [done|]. by eexists.
    + left. rewrite multi_gpu_launcher_single_node by done. simpl.
      eexists _, _. by rewrite children_app.
Qed.

Lemma tpu_launcher_no_child args s :
  children (trace (snd (tpu_launcher args s))) = children (trace s).
Proof.
  unfold tpu_launcher. run.
  destruct xmp_importable; simpl;
    [|by rewrite <- !app_assoc, children_app, app_nil_r].
  destruct (import_module _ _) as [mdl|]; simpl;
    [|by rewrite <- !app_assoc, children_app, app_nil_r].
  destruct (has_mp_fn mdl); simpl;
    [|by rewrite <- !app_assoc, children_app, app_nil_r].
  destruct (spawn_failure _ _); simpl;
    by rewrite <- !app_assoc, children_app, app_nil_r.
Qed.

End Launchers.

(** ** What the dispatcher does *)

Section Dispatch.
Context `{Host}.

Implicit Types (args : Namespace) (s : State) (d : LaunchConfig).

Lemma launch_command_both s :
  multi_gpu (namespace s) = true ->
  tpu (namespace s) = true ->
  launch_command s =
    (Raise (ValueError "You can only pick one between `--multi_gpu` and `--tpu`."), s).
Proof.
  intros Hm Ht. unfold launch_command. run. by rewrite Hm, Ht.
Qed.

Lemma launch_command_with_config s d :
  multi_gpu (namespace s) && tpu (namespace s) = false ->
  uses_config (namespace s) = true ->
  from_json_file (config_file (namespace s)) = Ok d ->
  let a := merge_defaults d (namespace s) in
  launch_command s =
    run_launcher (selected a) a
      (with_args a
         (log (probe (namespace s) ++ [LoadConfig (config_file (namespace s))]) s)).
Proof.
  intros Hv Hu Hd a. subst a.
  destruct s as [[cf mg tp fp np ts tsa ip port nm mr] env sp sv t].
  unfold launch_command, uses_config, probe, merge_defaults, selected,
    with_args in *. simpl in *. run. rewrite Hv. simpl.
  destruct cf as [f|]; simpl in *.
  - rewrite Hd. simpl.
    destruct mg, tp, np, fp; simpl in *; try done;
      repeat case_bool_decide; simpl; try done.
  - rewrite Hu. simpl. rewrite Hd. unfold log. simpl.
    rewrite <- app_assoc. simpl.
    destruct mg, tp, np, fp; simpl in *; try done;
      repeat case_bool_decide; simpl; try done.
Qed.

Lemma launch_command_load_fails s e :
  multi_gpu (namespace s) && tpu (namespace s) = false ->
  uses_config (namespace s) = true ->
  from_json_file (config_file (namespace s)) = Raise e ->
  launch_command s =
    (Raise e,
     log (probe (namespace s) ++ [LoadConfig (config_file (namespace s))]) s).
Proof.
  intros Hv Hu Hd.
  destruct s as [[cf mg tp fp np ts tsa ip port nm mr] env sp sv t].
  unfold launch_command, uses_config, probe in *. simpl in *. run.
  rewrite Hv. simpl.
  destruct cf as [f|]; simpl in *.
  - by rewrite Hd.
  - rewrite Hu. simpl. rewrite Hd. simpl. unfold log. simpl.
    by rewrite <- app_assoc.
Qed.

Lemma launch_command_without_config s :
  multi_gpu (namespace s) && tpu (namespace s) = false ->
  uses_config (namespace s) = false ->
  let a := default_processes (namespace s) in
  launch_command s =
    run_launcher (selected a) a (with_args a (log (probe (namespace s)) s)).
Proof.
  intros Hv Hu a. subst a.
  destruct s as [[cf mg tp fp np ts tsa ip port nm mr] env sp sv t].
  unfold launch_command, uses_config, probe, default_processes, selected,
    with_args in *. simpl in *. run. rewrite Hv. simpl.
  destruct cf as [f|]; simpl in *; [done|]. rewrite Hu. simpl.
  destruct mg, tp, np; simpl in *; try done.
Qed.

(** The [args] object after a run. *)
Lemma launch_command_namespace s :
  let a := namespace s in
  namespace (snd (launch_command s)) =
    if multi_gpu a && tpu a then a
    else if uses_config a then
      match from_json_file (config_file a) with
      | Ok d => merge_defaults d a
      | Raise _ => a
      end
    else default_processes a.
Proof.
  simpl. destruct (multi_gpu (namespace s) && tpu (namespace s)) eqn:Hv.
  - apply andb_true_iff in Hv as [Hm Ht]. by rewrite launch_command_both.
  - destruct (uses_config (namespace s)) eqn:Hu.
    + destruct (from_json_file (config_file (namespace s))) as [d|e] eqn:Hd.
      * rewrite (launch_command_with_config s d) by done.
        by destruct (run_launcher_frame (selected (merge_defaults d (namespace s)))
          (merge_defaults d (namespace s))
          (with_args (merge_defaults d (namespace s))
             (log (probe (namespace s) ++ [LoadConfig (config_file (namespace s))]) s)))
          as [-> _].
      * by rewrite (launch_command_load_fails s e).
    + rewrite launch_command_without_config by done.
      by destruct (run_launcher_frame (selected (default_processes (namespace s)))
        (default_processes (namespace s))
        (with_args (default_processes (namespace s)) (log (probe (namespace s)) s)))
        as [-> _].
Qed.

Lemma entered_probe args : entered (probe args) = [].
Proof. unfold probe. by destruct (config_file args). Qed.

Lemma children_probe args : children (probe args) = [].
Proof. unfold probe. by destruct (config_file args). Qed.

(** The launchers called in a run. *)
Lemma launch_command_entered s :
  let a := namespace s in
  entered (trace (snd (launch_command s))) =
    entered (trace s) ++
    if multi_gpu a && tpu a then []
    else if uses_config a then
      match from_json_file (config_file a) with
      | Ok d => [selected (merge_defaults d a)]
      | Raise _ => []
      end
    else [selected (default_processes a)].
Proof.
  simpl. destruct (multi_gpu (namespace s) && tpu (namespace s)) eqn:Hv.
  - apply andb_true_iff in Hv as [Hm Ht].
    by rewrite launch_command_both, app_nil_r.
  - destruct (uses_config (namespace s)) eqn:Hu.
    + destruct (from_json_file (config_file (namespace s))) as [d|e] eqn:Hd.
      * rewrite (launch_command_with_config s d) by done.
        destruct (run_launcher_frame (selected (merge_defaults d (namespace s)))
          (merge_defaults d (namespace s))
          (with_args (merge_defaults d (namespace s))
             (log (probe (namespace s) ++ [LoadConfig (config_file (namespace s))]) s)))
          as (_ & _ & -> & _).
        simpl. by rewrite !entered_app, entered_probe, !app_nil_r.
      * rewrite (launch_command_load_fails s e) by done. simpl.
        by rewrite !entered_app, entered_probe.
    + rewrite launch_command_without_config by done.
      destruct (run_launcher_frame (selected (default_processes (namespace s)))
        (default_processes (namespace s))
        (with_args (default_processes (namespace s)) (log (probe (namespace s)) s)))
        as (_ & _ & -> & _).
      simpl. by rewrite entered_app, entered_probe, app_nil_r.
Qed.

End Dispatch.

(** ** The claims *)

(** C1.  When both [--multi_gpu] and [--tpu] are set, [launch_command]
    raises [ValueError] and leaves the interpreter state as it found it:
    the trace has not grown, so no child process was created, the
    default configuration file was not looked for and no configuration
    was loaded, and the [args] object was not written. *)
Theorem launch_command_rejects_both_modes `{Host} (s : State) :
  multi_gpu (namespace s) = true ->
  tpu (namespace s) = true ->
  launch_command s =
    (Raise (ValueError "You can only pick one between `--multi_gpu` and `--tpu`."), s)
  /\ children (trace (snd (launch_command s))) = children (trace s)
  /\ loads (trace (snd (launch_command s))) = loads (trace s).
Proof.
  intros Hm Ht. by rewrite launch_command_both.
Qed.

Lemma launch_command_rejects_both_modes_witness :
  @launch_command (example_host 0 (Ok saved_multi_gpu) true) (start both_flags_args) =
    (Raise (ValueError "You can only pick one between `--multi_gpu` and `--tpu`."),
     start both_flags_args).
Proof.
  apply (@launch_command_rejects_both_modes
           (example_host 0 (Ok saved_multi_gpu) true) (start both_flags_args));
    reflexivity.
Defined.

(** C4.  [simple_launcher] starts exactly one child.  Its command is the
    interpreter path, then the training script path, then the training
    script arguments in their order.  Its environment is [os.environ]
    with [USE_FP16] set to [str(args.fp16)]: it maps [USE_FP16] to that
    string and agrees with the parent's environment on every other
    variable, and the parent's [os.environ] itself is not written. *)
Theorem simple_launcher_command_and_environment `{Host}
    (args : Namespace) (s : State) :
  exists env : gmap string string,
    children (trace (snd (simple_launcher args s))) =
      children (trace s) ++
      [(sys_executable :: training_script args :: training_script_args args, env)]
    /\ env = <["USE_FP16" := str_bool (fp16 args)]> (os_environ s)
    /\ env !! "USE_FP16" = Some (str_bool (fp16 args))
    /\ (forall k, k <> "USE_FP16" -> env !! k = os_environ s !! k)
    /\ os_environ (snd (simple_launcher args s)) = os_environ s.
Proof.
  exists (child_env args s). rewrite simple_launcher_run. simpl.
  rewrite children_app. unfold child_env. simpl.
  repeat split; [by rewrite lookup_insert_eq|].
  intros k Hk. by rewrite lookup_insert_ne.
Qed.

(** The spec's example of C4: [train.py --epochs 3]. *)
Example simple_launcher_train_py `{Host} (s : State) :
  children (trace (snd (simple_launcher train_args s))) =
    children (trace s) ++
    [([sys_executable; "train.py"; "--epochs"; "3"],
      <["USE_FP16" := "False"]> (os_environ s))].
Proof.
  rewrite simple_launcher_run. simpl. by rewrite children_app.
Qed.

(** C3.  Whenever a launcher has started a child with command [cmd] and
    that child's exit status is not zero, the launcher raises
    [CalledProcessError] with that status and that very [cmd]; and so
    does [launch_command], which lets the exception through.  (Only
    [simple_launcher] and [multi_gpu_launcher] start children.) *)
Theorem child_failure_is_raised `{Host} :
  (forall l args s cmd env,
     children (trace (snd (run_launcher l args s))) =
       children (trace s) ++ [(cmd, env)] ->
     returncode cmd env <> 0 ->
     fst (run_launcher l args s) =
       Raise (CalledProcessError (returncode cmd env) cmd))
  /\
  (forall s cmd env,
     children (trace (snd (launch_command s))) =
       children (trace s) ++ [(cmd, env)] ->
     returncode cmd env <> 0 ->
     fst (launch_command s) =
       Raise (CalledProcessError (returncode cmd env) cmd)).
Proof.
  assert (Hone : forall l args s cmd env,
     children (trace (snd (run_launcher l args s))) =
       children (trace s) ++ [(cmd, env)] ->
     returncode cmd env <> 0 ->
     fst (run_launcher l args s) =
       Raise (CalledProcessError (returncode cmd env) cmd)).
  { intros l args s cmd env Hch Hrc.
    assert (Hno : children (trace s) <> children (trace s) ++ [(cmd, env)]).
    { intros Heq. apply (f_equal length) in Heq.
      rewrite length_app in Heq. simpl in Heq. lia. }
    destruct (decide (l = XLA)) as [->|Hl].
    - simpl in Hch. by rewrite tpu_launcher_no_child in Hch.
    - destruct (subprocess_launcher_child l args s Hl)
        as [(cmd' & env' & Hch' & Hr)|[Hch' _]].
      + rewrite Hch' in Hch. apply app_inj_tail in Hch as [_ Heq].
        injection Heq as -> ->. rewrite Hr. unfold exit_check.
        by destruct (decide (returncode cmd env <> 0)).
      + by rewrite Hch' in Hch. }
  split; [exact Hone|].
  intros s cmd env Hch Hrc.
  assert (Hno : children (trace s) <> children (trace s) ++ [(cmd, env)]).
  { intros Heq. apply (f_equal length) in Heq.
    rewrite length_app in Heq. simpl in Heq. lia. }
  destruct (multi_gpu (namespace s) && tpu (namespace s)) eqn:Hv.
  { apply andb_true_iff in Hv as [Hm Ht].
    by rewrite launch_command_both in Hch. }
  destruct (uses_config (namespace s)) eqn:Hu.
  - destruct (from_json_file (config_file (namespace s))) as [d|e] eqn:Hd.
    + rewrite (launch_command_with_config s d) in Hch |- * by done.
      apply Hone; [|done]. rewrite Hch. simpl.
      by rewrite !children_app, children_probe, !app_nil_r.
    + rewrite (launch_command_load_fails s e) in Hch by done. simpl in Hch.
      by rewrite !children_app, children_probe, !app_nil_r in Hch.
  - rewrite launch_command_without_config in Hch |- * by done.
    apply Hone; [|done]. rewrite Hch. simpl.
    by rewrite !children_app, children_probe, !app_nil_r.
Qed.

Lemma child_failure_is_raised_witness :
  fst (@launch_command (example_host 2 (Ok saved_multi_gpu) false) (start train_args)) =
    Raise (CalledProcessError 2 ["/usr/bin/python3"; "train.py"; "--epochs"; "3"]).
Proof.
  apply (proj2 (@child_failure_is_raised (example_host 2 (Ok saved_multi_gpu) false))
           (start train_args)
           ["/usr/bin/python3"; "train.py"; "--epochs"; "3"]
           (<["USE_FP16" := "False"]> {["HOME" := "/home/user"]})).
  - reflexivity.
  - discriminate.
Defined.




(** C10.  The command [multi_gpu_launcher] runs carries
    [--nproc_per_node] twice, one after the other and before any other
    flag: first with the total process count, then with the total again
    when [main_process_ip] is [None], and with the total floor-divided
    by the machine count when an address is given. *)
Theorem multi_gpu_command_repeats_nproc_per_node `{Host}
    (args : Namespace) (s : State) :
  (main_process_ip args = None ->
   children (trace (snd (multi_gpu_launcher args s))) =
     children (trace s) ++
     [([sys_executable; "-m"; "torch.distributed.launch";
        "--nproc_per_node"; str_opt_int (num_processes args);
        "--nproc_per_node"; str_opt_int (num_processes args);
        training_script args] ++ training_script_args args,
       <["USE_FP16" := str_bool (fp16 args)]> (os_environ s))])
  /\
  (forall ip n,
     main_process_ip args = Some ip ->
     num_processes args = Some n ->
     num_machines args <> 0 ->
     children (trace (snd (multi_gpu_launcher args s))) =
       children (trace s) ++
       [([sys_executable; "-m"; "torch.distributed.launch";
          "--nproc_per_node"; str_int n;
          "--nproc_per_node"; str_int (n `div` num_machines args);
          "--nnodes"; str_int (num_machines args);
          "--node_rank"; str_int (machine_rank args);
          "--master_addr"; ip;
          "--node_rank"; str_int (main_process_port args);
          training_script args] ++ training_script_args args,
         <["USE_FP16" := str_bool (fp16 args)]> (os_environ s))]).
Proof.
  split.
  - intros Hip. rewrite multi_gpu_launcher_single_node by done. simpl.
    by rewrite children_app.
  - intros ip n Hip Hn Hm.
    rewrite (multi_gpu_launcher_multi_node args s ip n) by done. simpl.
    by rewrite children_app.
Qed.

Lemma multi_gpu_command_repeats_nproc_per_node_witness :
  children (trace (snd (@multi_gpu_launcher (example_host 0 (Ok saved_multi_gpu) false)
                          two_machines_args (start two_machines_args)))) =
    [(["/usr/bin/python3"; "-m"; "torch.distributed.launch";
       "--nproc_per_node"; "8"; "--nproc_per_node"; "4";
       "--nnodes"; "2"; "--node_rank"; "0"; "--master_addr"; "10.0.0.1";
       "--node_rank"; "29500"; "train.py"; "--epochs"; "3"],
      <["USE_FP16" := "False"]> {["HOME" := "/home/user"]})].
Proof.
  apply (proj2 (@multi_gpu_command_repeats_nproc_per_node
                  (example_host 0 (Ok saved_multi_gpu) false)
                  two_machines_args (start two_machines_args))
           "10.0.0.1" 8); [reflexivity | reflexivity | discriminate].
Defined.

(** C2 (the code departs from it).  With two machines, eight processes
    and the coordinator at 10.0.0.1:29500, the command passes the port
    29500 as the value of a second [--node_rank], after the machine's
    rank under the first one, and holds no [--master_port]: no flag of
    its own carries the port.  The per-node count 8 // 2 = 4 is passed,
    after a first [--nproc_per_node 8]. *)
Theorem multi_node_port_is_passed_as_node_rank :
  children (trace (snd (@multi_gpu_launcher (example_host 0 (Ok saved_multi_gpu) false)
                          two_machines_args (start two_machines_args)))) =
    [(["/usr/bin/python3"; "-m"; "torch.distributed.launch";
       "--nproc_per_node"; "8"; "--nproc_per_node"; "4";
       "--nnodes"; "2"; "--node_rank"; "0"; "--master_addr"; "10.0.0.1";
       "--node_rank"; "29500"; "train.py"; "--epochs"; "3"],
      <["USE_FP16" := "False"]> {["HOME" := "/home/user"]})]
  /\ forall cmd env,
       (cmd, env) ∈ children (trace (snd (@multi_gpu_launcher
           (example_host 0 (Ok saved_multi_gpu) false)
           two_machines_args (start two_machines_args)))) ->
       "--master_port" ∉ cmd.
Proof.
  assert (Hrun : children (trace (snd (@multi_gpu_launcher
      (example_host 0 (Ok saved_multi_gpu) false)
      two_machines_args (start two_machines_args)))) =
    [(["/usr/bin/python3"; "-m"; "torch.distributed.launch";
       "--nproc_per_node"; "8"; "--nproc_per_node"; "4";
       "--nnodes"; "2"; "--node_rank"; "0"; "--master_addr"; "10.0.0.1";
       "--node_rank"; "29500"; "train.py"; "--epochs"; "3"],
      <["USE_FP16" := "False"]> {["HOME" := "/home/user"]})]) by reflexivity.
  split; [exact Hrun|].
  intros cmd env Hin. rewrite Hrun in Hin.
  apply list_elem_of_singleton in Hin. injection Hin as -> _.
  intros Hmem. repeat (apply elem_of_cons in Hmem as [Hmem|Hmem]; [discriminate|]).
  by apply elem_of_nil in Hmem.
Qed.

Lemma uses_config_true `{Host} (args : Namespace) :
  is_Some (config_file args) \/ isfile default_config_file = true ->
  uses_config args = true.
Proof.
  unfold uses_config. intros [[f ->]|Hf]; [done|].
  by destruct (config_file args).
Qed.

Lemma uses_config_false `{Host} (args : Namespace) :
  config_file args = None ->
  isfile default_config_file = false ->
  uses_config args = false.
Proof. unfold uses_config. by intros -> ->. Qed.

(** C5.  A value the command line gave survives [launch_command],
    whatever a configuration holds and however the run ends:
    [--num_processes n] stays [n], a mode flag keeps both mode flags as
    they were, and [--fp16] stays set.  When a configuration is loaded,
    its values go to the attributes that were left unset: the process
    count when it was [None], the mode when neither mode flag was set,
    the precision when [--fp16] was not given. *)
Theorem cli_values_precede_defaults `{Host} (s : State) :
  (forall n, num_processes (namespace s) = Some n ->
     num_processes (namespace (snd (launch_command s))) = Some n)
  /\
  (multi_gpu (namespace s) || tpu (namespace s) = true ->
     multi_gpu (namespace (snd (launch_command s))) = multi_gpu (namespace s) /\
     tpu (namespace (snd (launch_command s))) = tpu (namespace s))
  /\
  (fp16 (namespace s) = true ->
     fp16 (namespace (snd (launch_command s))) = true)
  /\
  (forall d,
     multi_gpu (namespace s) && tpu (namespace s) = false ->
     is_Some (config_file (namespace s)) \/ isfile default_config_file = true ->
     from_json_file (config_file (namespace s)) = Ok d ->
     (num_processes (namespace s) = None ->
        num_processes (namespace (snd (launch_command s))) =
          Some (cfg_num_processes d)) /\
     (multi_gpu (namespace s) = false -> tpu (namespace s) = false ->
        multi_gpu (namespace (snd (launch_command s))) =
          bool_decide (distributed_type d = MULTI_GPU) /\
        tpu (namespace (snd (launch_command s))) =
          bool_decide (distributed_type d = TPU)) /\
     (fp16 (namespace s) = false ->
        fp16 (namespace (snd (launch_command s))) = cfg_fp16 d)).
Proof.
  pose proof (launch_command_namespace s) as Hns. simpl in Hns.
  destruct (namespace s) as [cf mg tp fp np ts tsa ip port nm mr] eqn:Ha.
  simpl in *. split; [|split; [|split]].
  - intros n ->. rewrite Hns.
    destruct (mg && tp); [done|].
    destruct (uses_config _); [|done].
    destruct (from_json_file cf) as [d|e]; [|done].
    unfold merge_defaults. simpl. by destruct mg, tp, fp.
  - intros Hflag. rewrite Hns.
    destruct (mg && tp) eqn:Hv; [done|].
    destruct (uses_config _); [|by destruct np].
    destruct (from_json_file cf) as [d|e]; [|done].
    unfold merge_defaults. simpl. by destruct mg, tp, np, fp.
  - intros ->. rewrite Hns. destruct (mg && tp); [done|].
    destruct (uses_config _); [|by destruct np].
    destruct (from_json_file cf) as [d|e]; [|done].
    unfold merge_defaults. simpl. by destruct mg, tp, np.
  - intros d Hv Hload Hd. rewrite Hns, Hv.
    match goal with
    | |- context [uses_config ?a] => rewrite (uses_config_true a Hload)
    end. simpl. rewrite Hd.
    unfold merge_defaults. simpl. split; [|split].
    + intros ->. by destruct mg, tp, fp.
    + intros -> ->. simpl. by destruct np, fp.
    + intros ->. by destruct mg, tp, np.
Qed.

Lemma cli_values_precede_defaults_witness :
  num_processes (namespace (snd (@launch_command
      (example_host 0 (Ok saved_multi_gpu) true) (start two_machines_args)))) =
    Some 8.
Proof.
  apply (proj1 (@cli_values_precede_defaults
                  (example_host 0 (Ok saved_multi_gpu) true)
                  (start two_machines_args)) 8).
  reflexivity.
Defined.

(** C6, as the code has it.  With no [--config_file], no default
    configuration file, and not both mode flags set, a process count
    left unset becomes 1 and both mode flags stay as the command line
    gave them, so that the launcher called is the single-process one
    when neither flag is set, and the one the flag names otherwise. *)
Theorem no_config_defaults `{Host} (s : State) :
  config_file (namespace s) = None ->
  isfile default_config_file = false ->
  multi_gpu (namespace s) && tpu (namespace s) = false ->
  (num_processes (namespace s) = None ->
     num_processes (namespace (snd (launch_command s))) = Some 1)
  /\ multi_gpu (namespace (snd (launch_command s))) = multi_gpu (namespace s)
  /\ tpu (namespace (snd (launch_command s))) = tpu (namespace s)
  /\ (multi_gpu (namespace s) = false -> tpu (namespace s) = false ->
        entered (trace (snd (launch_command s))) = entered (trace s) ++ [SIMPLE])
  /\ entered (trace (snd (launch_command s))) =
       entered (trace s) ++ [selected (namespace s)].
Proof.
  intros Hcf Hfile Hv.
  pose proof (launch_command_namespace s) as Hns.
  pose proof (launch_command_entered s) as Hen. simpl in Hns, Hen.
  rewrite (uses_config_false _ Hcf Hfile), Hv in Hns, Hen.
  assert (Hsel : selected (default_processes (namespace s)) = selected (namespace s)).
  { unfold default_processes. by destruct (num_processes (namespace s)). }
  rewrite Hsel in Hen. rewrite Hns.
  split; [|split; [|split; [|split]]].
  - unfold default_processes. by intros ->.
  - unfold default_processes. by destruct (num_processes (namespace s)).
  - unfold default_processes. by destruct (num_processes (namespace s)).
  - intros Hm Ht. rewrite Hen. unfold selected. by rewrite Hm, Ht.
  - done.
Qed.

Lemma no_config_defaults_witness :
  num_processes (namespace (snd (@launch_command
      (example_host 0 (Ok saved_multi_gpu) false) (start train_args)))) = Some 1
  /\ entered (trace (snd (@launch_command
      (example_host 0 (Ok saved_multi_gpu) false) (start train_args)))) = [SIMPLE].
Proof.
  destruct (@no_config_defaults (example_host 0 (Ok saved_multi_gpu) false)
              (start train_args) eq_refl eq_refl eq_refl) as (Hn & _ & _ & Hs & _).
  split; [exact (Hn eq_refl) | exact (Hs eq_refl eq_refl)].
Defined.

(** C6, as stated, fails: [accelerate launch --multi_gpu train.py] with
    neither configuration file runs the multi-accelerator launcher, not
    the single-process one (while the process count still becomes 1). *)
Lemma no_config_multi_gpu_flag_keeps_mode :
  config_file multi_gpu_flag_args = None
  /\ @isfile (example_host 0 (Ok saved_multi_gpu) false)
       (@default_config_file (example_host 0 (Ok saved_multi_gpu) false)) = false
  /\ entered (trace (snd (@launch_command
       (example_host 0 (Ok saved_multi_gpu) false) (start multi_gpu_flag_args)))) = [MULTI]
  /\ num_processes (namespace (snd (@launch_command
       (example_host 0 (Ok saved_multi_gpu) false) (start multi_gpu_flag_args)))) = Some 1.
Proof. repeat split; reflexivity. Qed.

(** C7, as the code has it.  When neither mode flag is set and the
    configuration that is loaded has distributed type [MULTI_GPU], the
    launcher called is the multi-accelerator one.  No run calls more
    than one launcher; a run calls exactly one when not both mode flags
    are set and the configuration, if one is read, loads. *)
Theorem config_mode_selects_launcher `{Host} (s : State) :
  (forall d,
     multi_gpu (namespace s) = false ->
     tpu (namespace s) = false ->
     is_Some (config_file (namespace s)) \/ isfile default_config_file = true ->
     from_json_file (config_file (namespace s)) = Ok d ->
     distributed_type d = MULTI_GPU ->
     entered (trace (snd (launch_command s))) = entered (trace s) ++ [MULTI])
  /\
  (exists ls,
     entered (trace (snd (launch_command s))) = entered (trace s) ++ ls /\
     (length ls <= 1)%nat)
  /\
  (multi_gpu (namespace s) && tpu (namespace s) = false ->
   (is_Some (config_file (namespace s)) \/ isfile default_config_file = true ->
    exists d, from_json_file (config_file (namespace s)) = Ok d) ->
   exists l,
     entered (trace (snd (launch_command s))) = entered (trace s) ++ [l]).
Proof.
  pose proof (launch_command_entered s) as Hen. simpl in Hen.
  split; [|split].
  - intros d Hm Ht Hload Hd Hty. rewrite Hen, Hm, Ht. simpl.
    rewrite (uses_config_true _ Hload), Hd.
    unfold merge_defaults, selected. rewrite Hm, Ht, Hty. simpl.
    destruct (namespace s) as [cf mg tp fp np ts tsa ip port nm mr].
    simpl. by destruct np, fp.
  - rewrite Hen. eexists. split; [done|].
    destruct (multi_gpu (namespace s) && tpu (namespace s)); [simpl; lia|].
    destruct (uses_config (namespace s)); [|simpl; lia].
    destruct (from_json_file (config_file (namespace s))); simpl; lia.
  - intros Hv Hload. rewrite Hen, Hv.
    destruct (uses_config (namespace s)) eqn:Hu; [|by eexists].
    destruct Hload as [d Hd]; [|rewrite Hd; by eexists].
    unfold uses_config in Hu.
    destruct (config_file (namespace s)); [left; by eexists | by right].
Qed.

Lemma config_mode_selects_launcher_witness :
  entered (trace (snd (@launch_command
      (example_host 0 (Ok saved_multi_gpu) true) (start train_args)))) = [MULTI].
Proof.
  apply (proj1 (@config_mode_selects_launcher
                  (example_host 0 (Ok saved_multi_gpu) true) (start train_args))
           saved_multi_gpu); try reflexivity.
  by right.
Defined.

(** C7, as stated, fails: with both mode flags set no launcher is
    called at all. *)
Lemma both_flags_run_no_launcher :
  entered (trace (snd (@launch_command
      (example_host 0 (Ok saved_multi_gpu) true) (start both_flags_args)))) = []
  /\ raised (fst (@launch_command
      (example_host 0 (Ok saved_multi_gpu) true) (start both_flags_args))) = true.
Proof. split; reflexivity. Qed.

Lemma stem_foo_bar : path_stem (Path "foo/bar.py") = "bar".
Proof. reflexivity. Qed.

Lemma parent_foo_bar : path_str (path_parent (Path "foo/bar.py")) = "foo".
Proof. reflexivity. Qed.

(** C8.  When [tpu_launcher] is called for the script [foo/bar.py], the
    XLA multiprocessing package is importable and the import of the
    script's module succeeds: [sys.path] has gained the resolved
    (absolute) form of [foo] at its end, the module asked of
    [importlib.import_module] is [bar], and [sys.argv] is the script
    path, then the script arguments in their order, then
    [--tpu_num_cores] and [str(args.num_processes)]. *)
Theorem tpu_launcher_imports_script_as_module `{Host}
    (args : Namespace) (s : State) (mdl : PyModule) :
  training_script args = "foo/bar.py" ->
  xmp_importable = true ->
  import_module (sys_path s ++ [resolve "foo"]) "bar" = Some mdl ->
  sys_path (snd (tpu_launcher args s)) = sys_path s ++ [resolve "foo"]
  /\ (exists evs,
        trace (snd (tpu_launcher args s)) =
          trace s ++ [Enter XLA; ImportXmp; ImportModule "bar"] ++ evs)
  /\ sys_argv (snd (tpu_launcher args s)) =
       ["foo/bar.py"] ++ training_script_args args
       ++ ["--tpu_num_cores"; str_opt_int (num_processes args)].
Proof.
  intros Hscript Hx Hi. unfold tpu_launcher. rewrite Hscript, Hx.
  rewrite stem_foo_bar, parent_foo_bar. run. rewrite Hi. simpl.
  destruct (has_mp_fn mdl); simpl.
  - destruct (spawn_failure _ _); simpl;
      (split; [done|split; [|done]]); eexists;
      rewrite <- !app_assoc; simpl; reflexivity.
  - split; [done|split; [|done]]. exists [].
    rewrite <- !app_assoc. reflexivity.
Qed.

Lemma tpu_launcher_imports_script_as_module_witness :
  sys_path (snd (@tpu_launcher (example_host 0 (Ok saved_multi_gpu) false)
                   tpu_args (start tpu_args))) =
    ["/usr/lib/python3"; "/work/foo"]
  /\ (exists evs,
        trace (snd (@tpu_launcher (example_host 0 (Ok saved_multi_gpu) false)
                      tpu_args (start tpu_args))) =
          [] ++ [Enter XLA; ImportXmp; ImportModule "bar"] ++ evs)
  /\ sys_argv (snd (@tpu_launcher (example_host 0 (Ok saved_multi_gpu) false)
                     tpu_args (start tpu_args))) =
       ["foo/bar.py"; "--lr"; "0.1"; "--tpu_num_cores"; "8"].
Proof.
  apply (@tpu_launcher_imports_script_as_module
           (example_host 0 (Ok saved_multi_gpu) false) tpu_args (start tpu_args)
           {| has_mp_fn := true |}); reflexivity.
Defined.

(** ** Further properties of the launchers *)

Section MoreLaunchers.
Context `{Host}.

Implicit Types (args : Namespace) (s : State) (cmd : list string)
  (env : gmap string string) (t : list Event).

Lemma probes_app t1 t2 : probes (t1 ++ t2) = probes t1 ++ probes t2.
Proof.
  induction t1 as [|e t1 IH]; [done|].
  destruct e; simpl; by rewrite ?IH.
Qed.

Lemma spawns_app t1 t2 : spawns (t1 ++ t2) = spawns t1 ++ spawns t2.
Proof.
  induction t1 as [|e t1 IH]; [done|].
  destruct e; simpl; by rewrite ?IH.
Qed.

Lemma imports_app t1 t2 : imports (t1 ++ t2) = imports t1 ++ imports t2.
Proof.
  induction t1 as [|e t1 IH]; [done|].
  destruct e; simpl; by rewrite ?IH.
Qed.

Lemma app_tail_neq {A} (l : list A) (x : A) : l <> l ++ [x].
Proof.
  intros Heq. apply (f_equal length) in Heq.
  rewrite length_app in Heq. simpl in Heq. lia.
Qed.

(** The two subprocess launchers, in every case: either one child is
    started, with the environment [child_env], and the outcome is the
    check of its exit status; or the per-node count could not be
    computed, and nothing but the call itself has happened. *)
Lemma subprocess_launcher_run l args s :
  l <> XLA ->
  (exists cmd pre,
     cmd = sys_executable :: pre ++ training_script args :: training_script_args args /\
     run_launcher l args s =
       (exit_check cmd (child_env args s),
        log [Enter l; Popen cmd (child_env args s)] s)) \/
  (exists e,
     (e = ZeroDivisionError \/ e = TypeError) /\
     run_launcher l args s = (Raise e, log [Enter l] s)).
Proof.
  intros Hl. destruct l; [| |done]; simpl.
  - left. exists ([sys_executable; training_script args] ++ training_script_args args), [].
    split; [done|]. apply simple_launcher_run.
  - destruct (main_process_ip args) as [ip|] eqn:Hip.
    + destruct (num_processes args) as [n|] eqn:Hn.
      * destruct (decide (num_machines args = 0)) as [Hm|Hm].
        -- right. exists ZeroDivisionError. split; [by left|].
           unfold multi_gpu_launcher, floordiv. rewrite Hip, Hn, Hm. by run.
        -- left. eexists _, (["-m"; "torch.distributed.launch"] ++ multi_node_flags n args ip).
           split; [|by apply multi_gpu_launcher_multi_node].
           unfold multi_gpu_cmd. simpl. done.
      * right. exists TypeError. split; [by right|].
        unfold multi_gpu_launcher, floordiv. rewrite Hip, Hn. by run.
    + left. eexists _, (["-m"; "torch.distributed.launch"]
                        ++ single_node_flags (num_processes args)).
      split; [|by apply multi_gpu_launcher_single_node].
      unfold multi_gpu_cmd. simpl. done.
Qed.

End MoreLaunchers.

(** X1.  When the XLA multiprocessing package cannot be imported,
    [tpu_launcher] raises [ImportError] for it before it has done
    anything else: [sys.path] and [sys.argv] are as before, the training
    module was not asked for, and nothing was spawned. *)
Theorem tpu_launcher_without_xla `{Host} (args : Namespace) (s : State) :
  xmp_importable = false ->
  fst (tpu_launcher args s) =
    Raise (ImportError "torch_xla.distributed.xla_multiprocessing")
  /\ sys_path (snd (tpu_launcher args s)) = sys_path s
  /\ sys_argv (snd (tpu_launcher args s)) = sys_argv s
  /\ imports (trace (snd (tpu_launcher args s))) = imports (trace s)
  /\ spawns (trace (snd (tpu_launcher args s))) = spawns (trace s).
Proof.
  intros Hx. unfold tpu_launcher. run. rewrite Hx. simpl.
  rewrite <- !app_assoc, imports_app, spawns_app. simpl.
  by rewrite !app_nil_r.
Qed.

Lemma tpu_launcher_without_xla_witness :
  fst (@tpu_launcher host_without_xla tpu_args (start tpu_args)) =
    Raise (ImportError "torch_xla.distributed.xla_multiprocessing")
  /\ sys_path (snd (@tpu_launcher host_without_xla tpu_args (start tpu_args))) =
       ["/usr/lib/python3"].
Proof.
  destruct (@tpu_launcher_without_xla host_without_xla tpu_args (start tpu_args)
              eq_refl) as (Hr & Hp & _).
  split; [exact Hr | exact Hp].
Defined.

(** X2.  When the import of the training module fails,
    [tpu_launcher] lets the exception of [importlib.import_module]
    through, whatever it is.  The directory it appended to [sys.path]
    stays there, while [sys.argv] has not been rewritten and nothing
    was spawned. *)
Theorem tpu_launcher_module_not_found `{Host} (args : Namespace) (s : State) :
  xmp_importable = true ->
  import_module
    (sys_path s ++ [resolve (path_str (path_parent (Path (training_script args))))])
    (path_stem (Path (training_script args))) = None ->
  fst (tpu_launcher args s) =
    Raise (import_failure
             (sys_path s ++
                [resolve (path_str (path_parent (Path (training_script args))))])
             (path_stem (Path (training_script args))))
  /\ sys_path (snd (tpu_launcher args s)) =
       sys_path s ++ [resolve (path_str (path_parent (Path (training_script args))))]
  /\ sys_argv (snd (tpu_launcher args s)) = sys_argv s
  /\ spawns (trace (snd (tpu_launcher args s))) = spawns (trace s).
Proof.
  intros Hx Hi. unfold tpu_launcher. run. rewrite Hx. simpl. rewrite Hi. simpl.
  rewrite <- !app_assoc, spawns_app. simpl. by rewrite !app_nil_r.
Qed.

Lemma tpu_launcher_module_not_found_witness :
  fst (@tpu_launcher (example_host 0 (Ok saved_multi_gpu) false)
         tpu_missing_args (start tpu_missing_args)) =
    Raise (ImportError "absent")
  /\ sys_path (snd (@tpu_launcher (example_host 0 (Ok saved_multi_gpu) false)
                      tpu_missing_args (start tpu_missing_args))) =
       ["/usr/lib/python3"; "/work/missing"]
  /\ sys_argv (snd (@tpu_launcher (example_host 0 (Ok saved_multi_gpu) false)
                      tpu_missing_args (start tpu_missing_args))) =
       ["accelerate"; "launch"].
Proof.
  destruct (@tpu_launcher_module_not_found (example_host 0 (Ok saved_multi_gpu) false)
              tpu_missing_args (start tpu_missing_args) eq_refl eq_refl)
    as (Hr & Hp & Ha & _).
  split; [exact Hr | split; [exact Hp | exact Ha]].
Defined.

(** X3.  When the imported training module has no [_mp_fn],
    [tpu_launcher] raises [AttributeError] only after it has rewritten
    [sys.argv]: the new argument vector and the appended [sys.path]
    entry are left behind, and nothing was spawned. *)
Theorem tpu_launcher_without_mp_fn `{Host}
    (args : Namespace) (s : State) (mdl : PyModule) :
  xmp_importable = true ->
  import_module
    (sys_path s ++ [resolve (path_str (path_parent (Path (training_script args))))])
    (path_stem (Path (training_script args))) = Some mdl ->
  has_mp_fn mdl = false ->
  fst (tpu_launcher args s) = Raise (AttributeError "_mp_fn")
  /\ sys_argv (snd (tpu_launcher args s)) =
       training_script args :: training_script_args args
       ++ ["--tpu_num_cores"; str_opt_int (num_processes args)]
  /\ sys_path (snd (tpu_launcher args s)) =
       sys_path s ++ [resolve (path_str (path_parent (Path (training_script args))))]
  /\ spawns (trace (snd (tpu_launcher args s))) = spawns (trace s).
Proof.
  intros Hx Hi Hf. unfold tpu_launcher. run. rewrite Hx. simpl. rewrite Hi.
  simpl. rewrite Hf. simpl.
  rewrite <- !app_assoc, spawns_app. simpl. by rewrite !app_nil_r.
Qed.

Lemma tpu_launcher_without_mp_fn_witness :
  fst (@tpu_launcher host_without_mp_fn tpu_args (start tpu_args)) =
    Raise (AttributeError "_mp_fn")
  /\ sys_argv (snd (@tpu_launcher host_without_mp_fn tpu_args (start tpu_args))) =
       ["foo/bar.py"; "--lr"; "0.1"; "--tpu_num_cores"; "8"].
Proof.
  destruct (@tpu_launcher_without_mp_fn host_without_mp_fn tpu_args (start tpu_args)
              {| has_mp_fn := false |} eq_refl eq_refl eq_refl) as (Hr & Ha & _).
  split; [exact Hr | exact Ha].
Defined.

(** X4.  [tpu_launcher] calls [xmp.spawn] at most once, with
    [nprocs = args.num_processes], and it does so exactly when the XLA
    package is importable and the training module is found and has
    [_mp_fn]; its outcome is then the one of [xmp.spawn], whose
    exception, if any, it lets through. *)
Theorem tpu_launcher_spawns_once `{Host} (args : Namespace) (s : State) :
  let dir := resolve (path_str (path_parent (Path (training_script args)))) in
  let name := path_stem (Path (training_script args)) in
  let argv := training_script args :: training_script_args args
              ++ ["--tpu_num_cores"; str_opt_int (num_processes args)] in
  let ready := xmp_importable &&
               match import_module (sys_path s ++ [dir]) name with
               | Some mdl => has_mp_fn mdl
               | None => false
               end in
  spawns (trace (snd (tpu_launcher args s))) =
    spawns (trace s) ++ (if ready then [num_processes args] else [])
  /\ (if ready
      then fst (tpu_launcher args s) =
             match spawn_failure argv (num_processes args) with
             | Some e => Raise e
             | None => Ok tt
             end
      else raised (fst (tpu_launcher args s)) = true).
Proof.
  simpl. unfold tpu_launcher. run.
  destruct xmp_importable; simpl;
    [|by rewrite <- !app_assoc, spawns_app].
  destruct (import_module _ _) as [mdl|]; simpl;
    [|by rewrite <- !app_assoc, spawns_app].
  destruct (has_mp_fn mdl); simpl;
    [|by rewrite <- !app_assoc, spawns_app].
  destruct (spawn_failure _ _); simpl;
    by rewrite <- !app_assoc, spawns_app.
Qed.


(** X6.  With a coordinator address and a machine count of zero,
    [multi_gpu_launcher] raises [ZeroDivisionError] while it builds the
    command: no child process is started and nothing is written. *)
Theorem multi_gpu_launcher_zero_machines `{Host}
    (args : Namespace) (s : State) (ip : string) (n : Z) :
  main_process_ip args = Some ip ->
  num_processes args = Some n ->
  num_machines args = 0 ->
  fst (multi_gpu_launcher args s) = Raise ZeroDivisionError
  /\ children (trace (snd (multi_gpu_launcher args s))) = children (trace s)
  /\ os_environ (snd (multi_gpu_launcher args s)) = os_environ s.
Proof.
  intros Hip Hn Hm. unfold multi_gpu_launcher, floordiv.
  rewrite Hip, Hn, Hm. run. by rewrite children_app, app_nil_r.
Qed.

Lemma multi_gpu_launcher_zero_machines_witness :
  fst (@multi_gpu_launcher (example_host 0 (Ok saved_multi_gpu) false)
         zero_machines_args (start zero_machines_args)) = Raise ZeroDivisionError
  /\ children (trace (snd (@multi_gpu_launcher
         (example_host 0 (Ok saved_multi_gpu) false)
         zero_machines_args (start zero_machines_args)))) = [].
Proof.
  destruct (@multi_gpu_launcher_zero_machines
              (example_host 0 (Ok saved_multi_gpu) false)
              zero_machines_args (start zero_machines_args) "10.0.0.1" 8
              eq_refl eq_refl eq_refl) as (Hr & Hc & _).
  split; [exact Hr | exact Hc].
Defined.

(** X7.  Without a coordinator address [multi_gpu_launcher] reads
    neither the machine count, nor the machine rank, nor the port: two
    [args] that agree on the precision flag, the process count, the
    script and its arguments have the same run. *)
Theorem multi_gpu_launcher_single_node_ignores_topology `{Host}
    (args args' : Namespace) (s : State) :
  main_process_ip args = None ->
  main_process_ip args' = None ->
  fp16 args' = fp16 args ->
  num_processes args' = num_processes args ->
  training_script args' = training_script args ->
  training_script_args args' = training_script_args args ->
  multi_gpu_launcher args' s = multi_gpu_launcher args s.
Proof.
  intros Hip Hip' Hf Hn Hs Ha.
  rewrite !multi_gpu_launcher_single_node by done.
  unfold multi_gpu_cmd, child_env. by rewrite Hf, Hn, Hs, Ha.
Qed.

Lemma multi_gpu_launcher_single_node_ignores_topology_witness :
  @multi_gpu_launcher (example_host 0 (Ok saved_multi_gpu) false)
     stale_topology_args (start train_args) =
  @multi_gpu_launcher (example_host 0 (Ok saved_multi_gpu) false)
     multi_gpu_flag_args (start train_args).
Proof.
  apply (@multi_gpu_launcher_single_node_ignores_topology
           (example_host 0 (Ok saved_multi_gpu) false)
           multi_gpu_flag_args stale_topology_args (start train_args));
    reflexivity.
Defined.

(** X8.  Every child [multi_gpu_launcher] starts gets [os.environ] with
    [USE_FP16] set to [str(args.fp16)] and nothing else changed, and
    [os.environ] itself is left as it was.  The command of that child
    begins with the interpreter, and the training script followed by
    its arguments are its last elements. *)
Theorem multi_gpu_launcher_child `{Host}
    (args : Namespace) (s : State)
    (cmd : list string) (env : gmap string string) :
  children (trace (snd (multi_gpu_launcher args s))) =
    children (trace s) ++ [(cmd, env)] ->
  env = <["USE_FP16" := str_bool (fp16 args)]> (os_environ s)
  /\ os_environ (snd (multi_gpu_launcher args s)) = os_environ s
  /\ exists flags,
       cmd = sys_executable :: flags
             ++ training_script args :: training_script_args args.
Proof.
  intros Hch.
  destruct (subprocess_launcher_run MULTI args s) as
    [(cmd' & pre & Hcmd & Hrun)|(e & _ & Hrun)]; [done| |];
    simpl in Hrun; rewrite Hrun in Hch |- *; simpl in *.
  - rewrite children_app in Hch. simpl in Hch.
    apply app_inj_tail in Hch as [_ Heq]. injection Heq as <- <-.
    split; [done|]. split; [done|]. by exists pre.
  - rewrite children_app, app_nil_r in Hch. by apply app_tail_neq in Hch.
Qed.

Lemma multi_gpu_launcher_child_witness :
  <["USE_FP16" := "False"]> ({["HOME" := "/home/user"]} : gmap string string) =
    <["USE_FP16" := str_bool (fp16 two_machines_args)]>
      (os_environ (start two_machines_args))
  /\ os_environ (snd (@multi_gpu_launcher (example_host 0 (Ok saved_multi_gpu) false)
                        two_machines_args (start two_machines_args))) =
       os_environ (start two_machines_args).
Proof.
  destruct (@multi_gpu_launcher_child (example_host 0 (Ok saved_multi_gpu) false)
              two_machines_args (start two_machines_args)
              ["/usr/bin/python3"; "-m"; "torch.distributed.launch";
               "--nproc_per_node"; "8"; "--nproc_per_node"; "4";
               "--nnodes"; "2"; "--node_rank"; "0"; "--master_addr"; "10.0.0.1";
               "--node_rank"; "29500"; "train.py"; "--epochs"; "3"]
              (<["USE_FP16" := "False"]> {["HOME" := "/home/user"]})
              eq_refl) as (He & Ho & _).
  split; [exact He | exact Ho].
Defined.

(** ** Further properties of the dispatcher *)

Section MoreDispatch.
Context `{Host}.

Implicit Types (args : Namespace) (s : State) (d : LaunchConfig).

(** No launcher asks the file system about a file. *)
Lemma run_launcher_probes l args s :
  probes (trace (snd (run_launcher l args s))) = probes (trace s).
Proof.
  destruct (decide (l = XLA)) as [->|Hl].
  - simpl. unfold tpu_launcher. run.
    destruct xmp_importable; simpl;
      [|by rewrite <- !app_assoc, probes_app, app_nil_r].
    destruct (import_module _ _) as [mdl|]; simpl;
      [|by rewrite <- !app_assoc, probes_app, app_nil_r].
    destruct (has_mp_fn mdl); simpl;
      [|by rewrite <- !app_assoc, probes_app, app_nil_r].
    destruct (spawn_failure _ _); simpl;
      by rewrite <- !app_assoc, probes_app, app_nil_r.
  - destruct (subprocess_launcher_run l args s Hl) as
      [(cmd & pre & _ & ->)|(e & _ & ->)]; simpl;
      by rewrite probes_app, app_nil_r.
Qed.

Lemma probes_probe args :
  probes (probe args) =
    match config_file args with Some _ => [] | None => [default_config_file] end.
Proof. unfold probe. by destruct (config_file args). Qed.

Lemma loads_probe args : loads (probe args) = [].
Proof. unfold probe. by destruct (config_file args). Qed.

Lemma launch_command_calls s s1 :
  before_launcher s = Some s1 ->
  launch_command s =
    run_launcher (selected (namespace s1)) (namespace s1) s1
  /\ os_environ s1 = os_environ s /\ sys_path s1 = sys_path s
  /\ sys_argv s1 = sys_argv s
  /\ children (trace s1) = children (trace s)
  /\ entered (trace s1) = entered (trace s).
Proof.
  unfold before_launcher.
  destruct (multi_gpu (namespace s) && tpu (namespace s)) eqn:Hv; [done|].
  destruct (uses_config (namespace s)) eqn:Hu.
  - destruct (from_json_file (config_file (namespace s))) as [d|e] eqn:Hd; [|done].
    intros [= <-]. rewrite (launch_command_with_config s d) by done. simpl.
    by rewrite !children_app, !entered_app, children_probe, entered_probe,
      !app_nil_r.
  - intros [= <-]. rewrite launch_command_without_config by done. simpl.
    by rewrite !children_app, !entered_app, children_probe, entered_probe,
      !app_nil_r.
Qed.

End MoreDispatch.

(** Where [launch_command] stops before it calls a launcher. *)
Lemma launch_command_stops `{Host} (s : State) :
  before_launcher s = None ->
  exists e evs,
    launch_command s = (Raise e, log evs s)
    /\ children evs = [] /\ entered evs = [].
Proof.
  unfold before_launcher.
  destruct (multi_gpu (namespace s) && tpu (namespace s)) eqn:Hv.
  - intros _. apply andb_true_iff in Hv as [Hm Ht].
    eexists _, []. by rewrite log_nil, launch_command_both.
  - destruct (uses_config (namespace s)) eqn:Hu; [|done].
    destruct (from_json_file (config_file (namespace s))) as [d|e] eqn:Hd; [done|].
    intros _. eexists _, _. rewrite (launch_command_load_fails s e) by done.
    split; [done|]. by rewrite children_app, entered_app, children_probe, entered_probe.
Qed.

(** X10.  Unless both mode flags are set, [launch_command] looks for the
    default configuration file only when no [--config_file] was given,
    and then once; it loads a configuration at most once, from the given
    file, or with no file name when the default file exists. *)
Theorem config_lookup_order `{Host} (s : State) :
  multi_gpu (namespace s) && tpu (namespace s) = false ->
  probes (trace (snd (launch_command s))) =
    probes (trace s) ++
    match config_file (namespace s) with
    | Some _ => []
    | None => [default_config_file]
    end
  /\ loads (trace (snd (launch_command s))) =
       loads (trace s) ++
       match config_file (namespace s) with
       | Some f => [Some f]
       | None => if isfile default_config_file then [None] else []
       end.
Proof.
  intros Hv.
  assert (Hu : uses_config (namespace s) =
    match config_file (namespace s) with
    | Some _ => true | None => isfile default_config_file end) by done.
  destruct (uses_config (namespace s)) eqn:Hu'.
  - assert (Hl : loads (probe (namespace s) ++ [LoadConfig (config_file (namespace s))]) =
      match config_file (namespace s) with
      | Some f => [Some f]
      | None => if isfile default_config_file then [None] else []
      end).
    { rewrite loads_app, loads_probe. simpl.
      destruct (config_file (namespace s)); [done|]. by rewrite <- Hu. }
    destruct (from_json_file (config_file (namespace s))) as [d|e] eqn:Hd.
    + rewrite (launch_command_with_config s d) by done.
      rewrite run_launcher_probes.
      destruct (run_launcher_frame (selected (merge_defaults d (namespace s)))
        (merge_defaults d (namespace s))
        (with_args (merge_defaults d (namespace s))
           (log (probe (namespace s) ++ [LoadConfig (config_file (namespace s))]) s)))
        as (_ & _ & _ & ->).
      simpl. rewrite !probes_app, loads_app, Hl, probes_probe. simpl.
      by rewrite app_nil_r.
    + rewrite (launch_command_load_fails s e) by done. simpl.
      rewrite !probes_app, loads_app, Hl, probes_probe. simpl.
      by rewrite app_nil_r.
  - rewrite launch_command_without_config by done.
    rewrite run_launcher_probes.
    destruct (run_launcher_frame (selected (default_processes (namespace s)))
      (default_processes (namespace s))
      (with_args (default_processes (namespace s)) (log (probe (namespace s)) s)))
      as (_ & _ & _ & ->).
    simpl. rewrite !probes_app, loads_app, loads_probe, probes_probe.
    destruct (config_file (namespace s)); [done|]. rewrite <- Hu.
    by rewrite app_nil_r.
Qed.

Lemma config_lookup_order_witness :
  probes (trace (snd (@launch_command (example_host 0 (Ok saved_multi_gpu) true)
                        (start config_file_args)))) = []
  /\ loads (trace (snd (@launch_command (example_host 0 (Ok saved_multi_gpu) true)
                          (start config_file_args)))) = [Some "my.json"].
Proof.
  apply (@config_lookup_order (example_host 0 (Ok saved_multi_gpu) true)
           (start config_file_args)).
  reflexivity.
Defined.

(** X11.  [launch_command] does not handle a failing configuration
    load: the loader's exception is its outcome, no launcher is called,
    no child process is started, and [args] keeps its values. *)
Theorem config_load_failure_propagates `{Host} (s : State) (e : Exn) :
  multi_gpu (namespace s) && tpu (namespace s) = false ->
  is_Some (config_file (namespace s)) \/ isfile default_config_file = true ->
  from_json_file (config_file (namespace s)) = Raise e ->
  fst (launch_command s) = Raise e
  /\ entered (trace (snd (launch_command s))) = entered (trace s)
  /\ children (trace (snd (launch_command s))) = children (trace s)
  /\ namespace (snd (launch_command s)) = namespace s.
Proof.
  intros Hv Hload Hd.
  rewrite (launch_command_load_fails s e) by (by try apply uses_config_true).
  simpl. by rewrite !entered_app, !children_app, entered_probe, children_probe,
    !app_nil_r.
Qed.

Lemma config_load_failure_propagates_witness :
  fst (@launch_command host_without_xla (start config_file_args)) =
    Raise (ExternalError "no configuration")
  /\ entered (trace (snd (@launch_command host_without_xla
                            (start config_file_args)))) = [].
Proof.
  destruct (@config_load_failure_propagates host_without_xla
              (start config_file_args) (ExternalError "no configuration")
              eq_refl (or_introl (ex_intro _ "my.json" eq_refl)) eq_refl)
    as (Hr & He & _).
  split; [exact Hr | exact He].
Defined.

(** X12.  With a loaded configuration and not both mode flags set, the
    launcher called is the one of the flag when a mode flag is set, and
    otherwise the one of the configuration's distributed type:
    multi-accelerator for [MULTI_GPU], TPU for [TPU], single-process
    for any other. *)
Theorem launcher_follows_flag_then_config `{Host} (s : State) (d : LaunchConfig) :
  multi_gpu (namespace s) && tpu (namespace s) = false ->
  is_Some (config_file (namespace s)) \/ isfile default_config_file = true ->
  from_json_file (config_file (namespace s)) = Ok d ->
  entered (trace (snd (launch_command s))) =
    entered (trace s) ++
    [if multi_gpu (namespace s) then MULTI
     else if tpu (namespace s) then XLA
     else match distributed_type d with
          | MULTI_GPU => MULTI
          | TPU => XLA
          | NO => SIMPLE
          end].
Proof.
  intros Hv Hload Hd. rewrite launch_command_entered. simpl.
  rewrite Hv, (uses_config_true _ Hload), Hd. f_equal. f_equal.
  unfold merge_defaults, selected.
  destruct (namespace s) as [cf mg tp fp np ts tsa ip port nm mr]. simpl in *.
  destruct mg, tp, np, fp, (distributed_type d); done.
Qed.

Lemma launcher_follows_flag_then_config_witness :
  entered (trace (snd (@launch_command (example_host 0 (Ok saved_tpu) true)
                         (start train_args)))) = [XLA].
Proof.
  apply (@launcher_follows_flag_then_config (example_host 0 (Ok saved_tpu) true)
           (start train_args) saved_tpu); [reflexivity | by right | reflexivity].
Defined.

(** X13.  A child process started by a run of [launch_command] sees
    [USE_FP16] as the precision after the fallback: the string of
    [--fp16 or defaults.fp16] when a configuration was loaded, and the
    string of [--fp16] alone when there was none.  The rest of its
    environment is [os.environ]. *)
Theorem child_precision_follows_defaults `{Host}
    (s : State) (cmd : list string) (env : gmap string string) :
  children (trace (snd (launch_command s))) = children (trace s) ++ [(cmd, env)] ->
  exists b : bool,
    env = <["USE_FP16" := str_bool b]> (os_environ s)
    /\ (forall d,
          is_Some (config_file (namespace s)) \/ isfile default_config_file = true ->
          from_json_file (config_file (namespace s)) = Ok d ->
          b = fp16 (namespace s) || cfg_fp16 d)
    /\ (config_file (namespace s) = None ->
        isfile default_config_file = false ->
        b = fp16 (namespace s)).
Proof.
  intros Hch.
  destruct (before_launcher s) as [s1|] eqn:Hb.
  - destruct (launch_command_calls s s1 Hb) as (Hrun & Henv & _ & _ & Hc & _).
    rewrite Hrun in Hch.
    destruct (decide (selected (namespace s1) = XLA)) as [Hx|Hx].
    { rewrite Hx in Hch. simpl in Hch.
      rewrite tpu_launcher_no_child, Hc in Hch. by apply app_tail_neq in Hch. }
    destruct (subprocess_launcher_run _ (namespace s1) s1 Hx) as
      [(cmd' & pre & _ & Hr)|(e & _ & Hr)]; rewrite Hr in Hch; simpl in Hch.
    + rewrite children_app, Hc in Hch. simpl in Hch.
      apply app_inj_tail in Hch as [_ Heq]. injection Heq as _ <-.
      exists (fp16 (namespace s1)). unfold child_env. rewrite Henv.
      split; [done|].
      unfold before_launcher in Hb.
      destruct (multi_gpu (namespace s) && tpu (namespace s)); [done|].
      split.
      * intros d Hload Hd. rewrite (uses_config_true _ Hload), Hd in Hb.
        injection Hb as <-. simpl. unfold merge_defaults.
        destruct (namespace s) as [cf mg tp fp np ts tsa ip port nm mr].
        simpl. by destruct mg, tp, np, fp.
      * intros Hcf Hfile. rewrite (uses_config_false _ Hcf Hfile) in Hb.
        injection Hb as <-. simpl. unfold default_processes.
        by destruct (num_processes (namespace s)).
    + rewrite children_app, app_nil_r, Hc in Hch. by apply app_tail_neq in Hch.
  - destruct (launch_command_stops s Hb) as (e & evs & Hr & Hc & _).
    rewrite Hr in Hch. simpl in Hch.
    rewrite children_app, Hc, app_nil_r in Hch. by apply app_tail_neq in Hch.
Qed.

Lemma child_precision_follows_defaults_witness :
  exists b : bool,
    <["USE_FP16" := "True"]> ({["HOME" := "/home/user"]} : gmap string string) =
      <["USE_FP16" := str_bool b]> (os_environ (start train_args))
    /\ (forall d,
          is_Some (config_file (namespace (start train_args))) \/
            @isfile (example_host 0 (Ok saved_multi_gpu) true)
              (@default_config_file (example_host 0 (Ok saved_multi_gpu) true)) = true ->
          @from_json_file (example_host 0 (Ok saved_multi_gpu) true)
            (config_file (namespace (start train_args))) = Ok d ->
          b = fp16 (namespace (start train_args)) || cfg_fp16 d)
    /\ (config_file (namespace (start train_args)) = None ->
        @isfile (example_host 0 (Ok saved_multi_gpu) true)
          (@default_config_file (example_host 0 (Ok saved_multi_gpu) true)) = false ->
        b = fp16 (namespace (start train_args))).
Proof.
  apply (@child_precision_follows_defaults (example_host 0 (Ok saved_multi_gpu) true)
           (start train_args)
           ["/usr/bin/python3"; "-m"; "torch.distributed.launch";
            "--nproc_per_node"; "4"; "--nproc_per_node"; "4";
            "train.py"; "--epochs"; "3"]).
  reflexivity.
Defined.



(** X16.  With [--tpu], no [--num_processes] and no configuration at
    all, the TPU strategy runs on one core: when its imports succeed
    and the module has [_mp_fn], [xmp.spawn] is called with
    [nprocs = 1] and [sys.argv] ends with [--tpu_num_cores 1]. *)
Theorem tpu_without_configuration_uses_one_core `{Host}
    (s : State) (mdl : PyModule) :
  config_file (namespace s) = None ->
  isfile default_config_file = false ->
  multi_gpu (namespace s) = false ->
  tpu (namespace s) = true ->
  num_processes (namespace s) = None ->
  xmp_importable = true ->
  import_module
    (sys_path s ++
       [resolve (path_str (path_parent (Path (training_script (namespace s)))))])
    (path_stem (Path (training_script (namespace s)))) = Some mdl ->
  has_mp_fn mdl = true ->
  spawns (trace (snd (launch_command s))) = spawns (trace s) ++ [Some 1]
  /\ sys_argv (snd (launch_command s)) =
       training_script (namespace s) :: training_script_args (namespace s)
       ++ ["--tpu_num_cores"; "1"].
Proof.
  intros Hcf Hfile Hm Ht Hn Hx Hi Hf.
  rewrite launch_command_without_config;
    [|by rewrite Hm | by apply uses_config_false].
  unfold default_processes, selected. rewrite Hn. simpl. rewrite Hm, Ht.
  simpl. rewrite (tpu_launcher_run _ _ mdl); [|done| |done].
  - simpl. rewrite <- !app_assoc, !spawns_app. simpl. split; [|done].
    unfold probe. rewrite Hcf. simpl. done.
  - by simpl.
Qed.

Lemma tpu_without_configuration_uses_one_core_witness :
  spawns (trace (snd (@launch_command (example_host 0 (Ok saved_multi_gpu) false)
        (start (set_num_processes None tpu_args))))) = [Some 1]
  /\ sys_argv (snd (@launch_command (example_host 0 (Ok saved_multi_gpu) false)
        (start (set_num_processes None tpu_args)))) =
       ["foo/bar.py"; "--lr"; "0.1"; "--tpu_num_cores"; "1"].
Proof.
  apply (@tpu_without_configuration_uses_one_core
           (example_host 0 (Ok saved_multi_gpu) false)
           (start (set_num_processes None tpu_args)) {| has_mp_fn := true |});
    reflexivity.
Defined.

(** ** Script paths *)

Lemma split_on_no_sep (c : ascii) (r : string) :
  has_char c r = false -> split_on c r = [r].
Proof.
  induction r as [|a r IH]; [done|]. simpl.
  destruct (decide (a = c)); [done|]. intros Hr. by rewrite IH.
Qed.

Lemma split_on_first (c : ascii) (d r : string) :
  has_char c d = false ->
  split_on c (d +:+ String c r) = d :: split_on c r.
Proof.
  induction d as [|a d IH]; simpl.
  - intros _. by destruct (decide (c = c)).
  - destruct (decide (a = c)); [done|]. intros Hd. by rewrite IH.
Qed.

Lemma has_char_app (c : ascii) (x y : string) :
  has_char c (x +:+ y) = has_char c x || has_char c y.
Proof.
  induction x as [|a x IH]; [done|]. simpl. by destruct (decide (a = c)).
Qed.

Lemma rfind_absent (c : ascii) (r : string) :
  has_char c r = false -> rfind c r = None.
Proof.
  induction r as [|a r IH]; [done|]. simpl.
  destruct (decide (a = c)); [done|]. intros Hr. by rewrite IH.
Qed.

Lemma rfind_last (c : ascii) (b ext : string) :
  has_char c ext = false ->
  rfind c (b +:+ String c ext) = Some (String.length b).
Proof.
  intros Hext. induction b as [|a b IH]; simpl.
  - rewrite rfind_absent by done. by destruct (decide (c = c)).
  - by rewrite IH.
Qed.

Lemma substring_prefix (b r : string) :
  String.substring 0 (String.length b) (b +:+ r) = b.
Proof.
  induction b as [|a b IH]; simpl; [by destruct r|]. by rewrite IH.
Qed.

Lemma length_append (x y : string) :
  String.length (x +:+ y) = (String.length x + String.length y)%nat.
Proof. induction x as [|a x IH]; simpl; [done|]. by rewrite IH. Qed.

(** The file name [b.ext] has stem [b], whatever dots [b] holds. *)
Lemma stem_of_name (b ext : string) :
  b <> "" -> ext <> "" -> has_char "."%char ext = false ->
  path_stem {| root := ""; parts := [b +:+ "." +:+ ext] |} = b
  /\ b +:+ "." +:+ ext <> "" /\ b +:+ "." +:+ ext <> ".".
Proof.
  intros Hb Hext Hdot. split; [|split].
  - unfold path_stem, path_name. simpl.
    change (b +:+ "." +:+ ext) with (b +:+ String "."%char ext).
    rewrite rfind_last by done.
    rewrite length_append. simpl.
    destruct (decide _) as [_|Hno].
    + apply substring_prefix.
    + destruct Hno. destruct b; [done|]. destruct ext; [done|]. simpl. lia.
  - by destruct b.
  - destruct b as [|a b]; [done|]. simpl. intros [= _ Hrest].
    by destruct b.
Qed.

Lemma plain_not_dot (d : string) : plain d -> d <> "" /\ d <> ".".
Proof.
  intros (Hne & _ & Hdot). split; [done|]. intros ->. simpl in Hdot.
  by destruct (decide ("."%char = "."%char)).
Qed.

(** A script [d/b.ext] in a directory named without separators. *)
Lemma Path_in_directory (d b ext : string) :
  plain d -> b <> "" -> has_char "/"%char b = false -> plain ext ->
  Path (d +:+ "/" +:+ b +:+ "." +:+ ext) =
    {| root := ""; parts := [d; b +:+ "." +:+ ext] |}.
Proof.
  intros Hd Hb Hbs (Hext & Hes & Hed).
  destruct (plain_not_dot d Hd) as [Hd1 Hd2]. destruct Hd as (_ & Hds & _).
  destruct (stem_of_name b ext Hb Hext Hed) as (_ & Hn1 & Hn2).
  unfold Path. f_equal.
  - destruct d as [|a d]; [done|]. simpl in *.
    by destruct (decide (a = "/"%char)).
  - change (d +:+ "/" +:+ b +:+ "." +:+ ext)
      with (d +:+ String "/"%char (b +:+ "." +:+ ext)).
    rewrite split_on_first by done.
    rewrite split_on_no_sep.
    + rewrite filter_cons_True by done. rewrite filter_cons_True by done. done.
    + rewrite has_char_app, Hbs. simpl.
      by destruct (decide ("."%char = "/"%char)).
Qed.

(** A script [b.ext] named without a directory. *)
Lemma Path_bare_name (b ext : string) :
  b <> "" -> has_char "/"%char b = false -> plain ext ->
  Path (b +:+ "." +:+ ext) = {| root := ""; parts := [b +:+ "." +:+ ext] |}.
Proof.
  intros Hb Hbs (Hext & Hes & Hed).
  destruct (stem_of_name b ext Hb Hext Hed) as (_ & Hn1 & Hn2).
  unfold Path. f_equal.
  - destruct b as [|a b]; [done|]. simpl in *.
    by destruct (decide (a = "/"%char)).
  - rewrite split_on_no_sep.
    + by rewrite filter_cons_True by done.
    + rewrite has_char_app, Hbs. simpl.
      by destruct (decide ("."%char = "/"%char)).
Qed.

(** X17.  For a training script [d/b.ext] (a directory name without
    separators, a file name whose extension holds no dot),
    [tpu_launcher] appends the resolved form of [d] to [sys.path] and
    asks [importlib.import_module] for [b], the file name without its
    last suffix, whatever happens afterwards. *)
Theorem tpu_launcher_module_of_script `{Host}
    (args : Namespace) (s : State) (d b ext : string) :
  plain d -> b <> "" -> has_char "/"%char b = false -> plain ext ->
  training_script args = d +:+ "/" +:+ b +:+ "." +:+ ext ->
  xmp_importable = true ->
  sys_path (snd (tpu_launcher args s)) = sys_path s ++ [resolve d]
  /\ imports (trace (snd (tpu_launcher args s))) = imports (trace s) ++ [b].
Proof.
  intros Hd Hb Hbs Hext Hscript Hx.
  assert (Hstem : path_stem (Path (training_script args)) = b).
  { rewrite Hscript, Path_in_directory by done.
    destruct Hext as (He & _ & Hed). by apply stem_of_name. }
  assert (Hdir : path_str (path_parent (Path (training_script args))) = d).
  { rewrite Hscript, Path_in_directory by done.
    unfold path_parent, path_str. simpl. done. }
  unfold tpu_launcher. run. rewrite Hx. simpl. rewrite Hstem, Hdir.
  destruct (import_module _ _) as [mdl|]; simpl;
    [|by rewrite <- !app_assoc, imports_app].
  destruct (has_mp_fn mdl); simpl;
    [|by rewrite <- !app_assoc, imports_app].
  destruct (spawn_failure _ _); simpl;
    by rewrite <- !app_assoc, imports_app.
Qed.

Lemma tpu_launcher_module_of_script_witness :
  sys_path (snd (@tpu_launcher (example_host 0 (Ok saved_multi_gpu) false)
                   tpu_missing_args (start tpu_missing_args))) =
    ["/usr/lib/python3"; "/work/missing"]
  /\ imports (trace (snd (@tpu_launcher (example_host 0 (Ok saved_multi_gpu) false)
                            tpu_missing_args (start tpu_missing_args)))) = ["absent"].
Proof.
  apply (@tpu_launcher_module_of_script (example_host 0 (Ok saved_multi_gpu) false)
           tpu_missing_args (start tpu_missing_args) "missing" "absent" "py");
    done.
Defined.

(** X18.  For a training script [b.ext] named without a directory,
    [tpu_launcher] appends the resolved form of the current directory
    [.] to [sys.path] and asks for the module [b]. *)
Theorem tpu_launcher_script_in_current_directory `{Host}
    (args : Namespace) (s : State) (b ext : string) :
  b <> "" -> has_char "/"%char b = false -> plain ext ->
  training_script args = b +:+ "." +:+ ext ->
  xmp_importable = true ->
  sys_path (snd (tpu_launcher args s)) = sys_path s ++ [resolve "."]
  /\ imports (trace (snd (tpu_launcher args s))) = imports (trace s) ++ [b].
Proof.
  intros Hb Hbs Hext Hscript Hx.
  assert (Hstem : path_stem (Path (training_script args)) = b).
  { rewrite Hscript, Path_bare_name by done.
    destruct Hext as (He & _ & Hed). by apply stem_of_name. }
  assert (Hdir : path_str (path_parent (Path (training_script args))) = ".").
  { rewrite Hscript, Path_bare_name by done. done. }
  unfold tpu_launcher. run. rewrite Hx. simpl. rewrite Hstem, Hdir.
  destruct (import_module _ _) as [mdl|]; simpl;
    [|by rewrite <- !app_assoc, imports_app].
  destruct (has_mp_fn mdl); simpl;
    [|by rewrite <- !app_assoc, imports_app].
  destruct (spawn_failure _ _); simpl;
    by rewrite <- !app_assoc, imports_app.
Qed.

Lemma tpu_launcher_script_in_current_directory_witness :
  sys_path (snd (@tpu_launcher (example_host 0 (Ok saved_multi_gpu) false)
                   train_args (start train_args))) =
    ["/usr/lib/python3"; "/work"]
  /\ imports (trace (snd (@tpu_launcher (example_host 0 (Ok saved_multi_gpu) false)
                            train_args (start train_args)))) = ["train"].
Proof.
  apply (@tpu_launcher_script_in_current_directory
           (example_host 0 (Ok saved_multi_gpu) false)
           train_args (start train_args) "train" "py"); done.
Defined.
